(** * mcp-automotive-playground: framed JSON-RPC over stdio

    A shallow embedding of [src/mcp_server.py], [src/llm_client.py],
    [src/services.py] and [src/orchestrator.py], and the properties of the
    framed transport, of the server's dispatch loop, of the client
    endpoint, of the tool-calling loop, of the command line of the client
    and of the scenarios.

    Conventions.
    - Python [bytes] are [list byte]; a Python [str] is a [string] holding
      its UTF-8 encoding, so that [==], concatenation and [startswith] on
      [str] are the same operations on the encodings.
    - Python values that travel as JSON are the type [value]; a [dict] is an
      association list in insertion order.  Floats are left out.
    - [json.dumps], [json.loads], the clock and [repr] of a [str] belong to
      the interpreter's library; they are parameters of the model.  So are
      the environment and the service behind [urlopen], where the code
      reads them.
    - A stream is the unread bytes of a pipe with a flag telling whether the
      writing end is closed; a read that would wait for more bytes is the
      outcome [Block]. *)

From Stdlib Require Import List ZArith Lia Bool String Ascii.
From Stdlib Require Import Strings.Byte.
Import ListNotations.

Local Open Scope Z_scope.
Local Open Scope list_scope.

Set Implicit Arguments.
Set Warnings "-register-all".

(** ** Bytes *)

Module Bytes.

Definition CR : byte := x0d.
Definition LF : byte := x0a.
Definition CRLF : list byte := [CR; LF].

(** A bytes literal [b"..."] without escapes. *)
Definition lit (s : string) : list byte := list_byte_of_string s.

Fixpoint eqb (a b : list byte) : bool :=
  match a, b with
  | [], [] => true
  | x :: a', y :: b' => Byte.eqb x y && eqb a' b'
  | _, _ => false
  end.

(** [bytes.lower()]: only the ASCII letters change. *)
Definition lower_byte (c : byte) : byte :=
  match c with
  | x41 => x61 | x42 => x62 | x43 => x63 | x44 => x64 | x45 => x65
  | x46 => x66 | x47 => x67 | x48 => x68 | x49 => x69 | x4a => x6a
  | x4b => x6b | x4c => x6c | x4d => x6d | x4e => x6e | x4f => x6f
  | x50 => x70 | x51 => x71 | x52 => x72 | x53 => x73 | x54 => x74
  | x55 => x75 | x56 => x76 | x57 => x77 | x58 => x78 | x59 => x79
  | x5a => x7a
  | _ => c
  end.

Definition lower (l : list byte) : list byte := map lower_byte l.

(** [l.startswith(p)] *)
Fixpoint startswith (l p : list byte) : bool :=
  match p, l with
  | [], _ => true
  | y :: p', x :: l' => Byte.eqb x y && startswith l' p'
  | _ :: _, [] => false
  end.

(** [l.split(b":", 1)]: [None] when there is no colon (the result then has
    one element and indexing it at 1 fails), else the parts before and after
    the first colon. *)
Fixpoint split_colon (l : list byte) : option (list byte * list byte) :=
  match l with
  | [] => None
  | c :: l' =>
      if Byte.eqb c x3a then Some ([], l')
      else match split_colon l' with
           | Some (pre, post) => Some (c :: pre, post)
           | None => None
           end
  end.

(** The bytes removed by [bytes.strip()] and skipped by [int()]:
    space, tab, LF, CR, VT, FF. *)
Definition is_space (c : byte) : bool :=
  match c with
  | x20 | x09 | x0a | x0d | x0b | x0c => true
  | _ => false
  end.

Fixpoint lstrip (l : list byte) : list byte :=
  match l with
  | c :: l' => if is_space c then lstrip l' else l
  | [] => []
  end.

Definition rstrip (l : list byte) : list byte := rev (lstrip (rev l)).

Definition strip (l : list byte) : list byte := rstrip (lstrip l).

Definition digit_value (c : byte) : option Z :=
  match c with
  | x30 => Some 0 | x31 => Some 1 | x32 => Some 2 | x33 => Some 3
  | x34 => Some 4 | x35 => Some 5 | x36 => Some 6 | x37 => Some 7
  | x38 => Some 8 | x39 => Some 9
  | _ => None
  end.

Definition digit_byte (d : Z) : byte :=
  match d with
  | 0 => x30 | 1 => x31 | 2 => x32 | 3 => x33 | 4 => x34
  | 5 => x35 | 6 => x36 | 7 => x37 | 8 => x38 | _ => x39
  end.

(** The digits of [int()]'s grammar: one or more decimal digits, with single
    underscores allowed between two digits.  [prev] tells whether the
    previous byte was a digit. *)
Fixpoint int_digits (acc : Z) (prev : bool) (l : list byte) : option Z :=
  match l with
  | [] => if prev then Some acc else None
  | c :: l' =>
      match digit_value c with
      | Some d => int_digits (10 * acc + d) true l'
      | None =>
          if Byte.eqb c x5f && prev then int_digits acc false l' else None
      end
  end.

(** [int(l)] on bytes, base 10: surrounding white space, an optional sign,
    then the digits.  [None] stands for [ValueError].  The interpreter's
    refusal of literals longer than 4300 digits is not modelled. *)
Definition int (l : list byte) : option Z :=
  match strip l with
  | x2d :: ds => option_map Z.opp (int_digits 0 false ds)
  | x2b :: ds => int_digits 0 false ds
  | ds => int_digits 0 false ds
  end.

(** The decimal digits of a natural number, least significant first. *)
Fixpoint digits_le (fuel : nat) (n : Z) : list byte :=
  match fuel with
  | O => []
  | S fuel' =>
      digit_byte (n mod 10) ::
      (if n <? 10 then [] else digits_le fuel' (n / 10))
  end.

(** [str(z).encode()] for an integer [z], as in an f-string. *)
Definition of_int (z : Z) : list byte :=
  if z <? 0
  then x2d :: rev (digits_le (S (Z.to_nat (Z.log2 (- z)))) (- z))
  else rev (digits_le (S (Z.to_nat (Z.log2 z))) z).

Definition hex_digit (n : N) : ascii :=
  match n with
  | 0 => "0" | 1 => "1" | 2 => "2" | 3 => "3" | 4 => "4" | 5 => "5"
  | 6 => "6" | 7 => "7" | 8 => "8" | 9 => "9" | 10 => "a" | 11 => "b"
  | 12 => "c" | 13 => "d" | 14 => "e" | _ => "f"
  end%N%char.

(** One byte in [repr(l)], between the quotes [quote]. *)
Definition repr_byte (quote c : byte) : string :=
  let plain := String (ascii_of_byte c) EmptyString in
  if (Byte.eqb c quote || Byte.eqb c x5c)%bool then String "\" plain
  else if Byte.eqb c x09 then "\t"%string
  else if Byte.eqb c x0a then "\n"%string
  else if Byte.eqb c x0d then "\r"%string
  else if ((Byte.to_N c <? 32) || (127 <=? Byte.to_N c))%N%bool
       then String "\" (String "x" (String (hex_digit (Byte.to_N c / 16))
                                      (String (hex_digit (Byte.to_N c mod 16)) EmptyString)))
       else plain.

(** [repr(l)] for bytes: [b'...'], with double quotes instead when [l] has
    a single quote and no double quote. *)
Definition repr (l : list byte) : string :=
  let quote :=
    if (existsb (Byte.eqb x27) l && negb (existsb (Byte.eqb x22) l))%bool
    then x22 else x27 in
  let q := String (ascii_of_byte quote) EmptyString in
  (String "b" q ++ String.concat EmptyString (map (repr_byte quote) l) ++ q)%string.

(** The text of the [ValueError] of [int(l)]: the interpreter quotes the
    first 200 bytes of [l] and cuts what it quotes after 200 characters. *)
Definition int_error (l : list byte) : string :=
  ("invalid literal for int() with base 10: "
   ++ substring 0 200 (repr (firstn 200 l)))%string.

End Bytes.

(** [str(z)] *)
Definition str_of_int (z : Z) : string := string_of_list_byte (Bytes.of_int z).

(** ** Values, exceptions and outcomes *)

(** The Python values that JSON carries.  [VNone] is [None]; a [dict] keeps
    its items in insertion order. *)
Inductive value : Type :=
| VNone
| VBool (b : bool)
| VInt (z : Z)
| VStr (s : string)
| VList (items : list value)
| VDict (items : list (string * value)).

(** The exceptions the modelled code raises or meets, each with the text
    that [str(exc)] gives. *)
Inductive exn : Type :=
| RuntimeError (msg : string)
| ValueError (msg : string)
| AttributeError (msg : string)
| TypeError (msg : string)
| KeyError (msg : string)
| IndexError (msg : string)
| JSONDecodeError
| BrokenPipeError.

(** The result of an expression or call that may raise. *)
Inductive result (A : Type) : Type :=
| Ok (a : A)
| Err (e : exn).

Arguments Ok {A} a.
Arguments Err {A} e.

Definition bind {A B : Type} (r : result A) (k : A -> result B) : result B :=
  match r with
  | Ok a => k a
  | Err e => Err e
  end.

Notation "x <- r ;; k" := (bind r (fun x => k))
  (at level 61, r at next level, right associativity).

(** The outcome of a read on a stream: a value or an exception, with the
    bytes left unread, or a read that waits for bytes that have not
    arrived. *)
Inductive outcome (A : Type) : Type :=
| Return (a : A) (rest : list byte)
| Raise (e : exn) (rest : list byte)
| Block.

Arguments Return {A} a rest.
Arguments Raise {A} e rest.
Arguments Block {A}.

(** The unread bytes of a pipe; [closed] holds once the writing end is
    closed, so that the end of [buf] is the end of the stream. *)
Record stream : Type := Stream { buf : list byte; closed : bool }.

Module Py.

Open Scope string_scope.

Definition type_name (v : value) : string :=
  match v with
  | VNone => "NoneType"
  | VBool _ => "bool"
  | VInt _ => "int"
  | VStr _ => "str"
  | VList _ => "list"
  | VDict _ => "dict"
  end.

(** [AttributeError] as raised by [v.attr] for a missing attribute. *)
Definition no_attribute (v : value) (attr : string) : exn :=
  AttributeError ("'" ++ type_name v ++ "' object has no attribute '" ++ attr ++ "'").

(** Truth value of [v], as tested by [if], [not] and [or]. *)
Definition truthy (v : value) : bool :=
  match v with
  | VNone => false
  | VBool b => b
  | VInt z => negb (z =? 0)%Z
  | VStr s => negb (s =? "")
  | VList l => match l with [] => false | _ => true end
  | VDict l => match l with [] => false | _ => true end
  end.

(** Lookup in the items of a [dict]. *)
Fixpoint lookup (k : string) (items : list (string * value)) : option value :=
  match items with
  | [] => None
  | (k', v) :: items' => if k' =? k then Some v else lookup k items'
  end.

(** [d.get(k, default)]; any value that is not a [dict] has no [get]. *)
Definition get (d : value) (k : string) (default : value) : result value :=
  match d with
  | VDict items =>
      match lookup k items with
      | Some v => Ok v
      | None => Ok default
      end
  | _ => Err (no_attribute d "get")
  end.

(** [v == s] for a [str] constant [s]. *)
Definition eq_str (v : value) (s : string) : bool :=
  match v with
  | VStr s' => s' =? s
  | _ => false
  end.

(** [v is None] *)
Definition is_none (v : value) : bool :=
  match v with
  | VNone => true
  | _ => false
  end.

(** [v[key]] for a [str] constant [key] *)
Definition item (v : value) (key : string) : result value :=
  match v with
  | VDict items =>
      match lookup key items with
      | Some x => Ok x
      | None => Err (KeyError ("'" ++ key ++ "'"))
      end
  | VList _ => Err (TypeError "list indices must be integers or slices, not str")
  | VStr _ => Err (TypeError "string indices must be integers, not 'str'")
  | _ => Err (TypeError ("'" ++ type_name v ++ "' object is not subscriptable"))
  end.

(** [v[0]]; the first item of a [str] is given as its first code unit. *)
Definition item0 (v : value) : result value :=
  match v with
  | VList (x :: _) => Ok x
  | VList [] => Err (IndexError "list index out of range")
  | VDict _ => Err (KeyError "0")
  | VStr (String c _) => Ok (VStr (String c ""))
  | VStr EmptyString => Err (IndexError "string index out of range")
  | _ => Err (TypeError ("'" ++ type_name v ++ "' object is not subscriptable"))
  end.

(** The items that [for x in v] goes through; those of a [str] are given
    one per code unit. *)
Definition iter (v : value) : result (list value) :=
  match v with
  | VList items => Ok items
  | VDict items => Ok (map (fun kv => VStr (fst kv)) items)
  | VStr s => Ok (map (fun c => VStr (String c "")) (list_ascii_of_string s))
  | _ => Err (TypeError ("'" ++ type_name v ++ "' object is not iterable"))
  end.

(** [str(exc)] *)
Definition str_exc (e : exn) : string :=
  match e with
  | RuntimeError msg | ValueError msg | AttributeError msg
  | TypeError msg | KeyError msg | IndexError msg => msg
  | JSONDecodeError => "Expecting value"
  | BrokenPipeError => "[Errno 32] Broken pipe"
  end.

(** [stream.readline()]: the bytes up to and including the first LF; at the
    end of a closed stream, whatever is left (nothing, at the very end). *)
Fixpoint split_line (l : list byte) : option (list byte * list byte) :=
  match l with
  | [] => None
  | c :: l' =>
      if Byte.eqb c Bytes.LF then Some ([c], l')
      else match split_line l' with
           | Some (line, rest) => Some (c :: line, rest)
           | None => None
           end
  end.

Definition readline (s : stream) : outcome (list byte) :=
  match split_line (buf s) with
  | Some (line, rest) => Return line rest
  | None => if closed s then Return (buf s) [] else Block
  end.

(** [stream.read(n)] on a buffered binary stream: exactly [n] bytes, fewer
    only at the end of the stream; -1 reads to the end, and any other
    negative [n] is refused.  A size that the interpreter cannot allocate
    (it then raises [MemoryError] or [OverflowError]) is not modelled. *)
Definition read (n : Z) (s : stream) : outcome (list byte) :=
  if (n <? -1)%Z
  then Raise (ValueError "read length must be non-negative or -1") (buf s)
  else if (n <? 0)%Z
  then if closed s then Return (buf s) [] else Block
  else if (Z.to_nat n <=? List.length (buf s))%nat
       then Return (firstn (Z.to_nat n) (buf s)) (skipn (Z.to_nat n) (buf s))
       else if closed s then Return (buf s) [] else Block.

End Py.

(** ** The interpreter's library

    What the code calls and this repository does not define. *)
Record library : Type := Library {
  (** [json.dumps(v).encode("utf-8")] *)
  dumps : value -> list byte;
  (** [json.loads(b.decode("utf-8"))]; [None] when decoding raises *)
  loads : list byte -> option value;
  (** [datetime.utcnow().isoformat()] at the n-th reading of the clock *)
  utcnow_isoformat : nat -> string;
  (** [repr(s)] for a [str] *)
  repr_str : string -> string
}.

Module Text.

Open Scope string_scope.

Fixpoint join (sep : string) (l : list string) : string :=
  match l with
  | [] => ""
  | [x] => x
  | x :: l' => x ++ sep ++ join sep l'
  end.

(** [needle in s] for two [str] *)
Fixpoint contains (needle s : string) : bool :=
  prefix needle s ||
  match s with
  | EmptyString => false
  | String _ s' => contains needle s'
  end.

Section WithLibrary.

Variable L : library.

(** [repr(v)] *)
Fixpoint repr (v : value) : string :=
  match v with
  | VNone => "None"
  | VBool true => "True"
  | VBool false => "False"
  | VInt z => str_of_int z
  | VStr s => repr_str L s
  | VList items => "[" ++ join ", " (map repr items) ++ "]"
  | VDict items =>
      "{" ++ join ", " (map (fun kv => repr_str L (fst kv) ++ ": " ++ repr (snd kv)) items) ++ "}"
  end.

(** [str(v)], also what an f-string puts for [{v}] *)
Definition str (v : value) : string :=
  match v with
  | VStr s => s
  | _ => repr v
  end.

End WithLibrary.

End Text.

(** ** Framed transport: the header loop

    Lines 91-98 of [mcp_server.py] and lines 52-59 of [llm_client.py] are the
    same loop; they differ in what follows [if not line:], which is left to
    the caller: [Return None] is the end of the stream met at a [readline],
    [Return (Some content_length)] is the [break] at the empty line. *)
Module Frame.

Definition is_empty (l : list byte) : bool :=
  match l with
  | [] => true
  | _ => false
  end.

Fixpoint header_loop (fuel : nat) (closed : bool) (buf : list byte)
    (content_length : option Z) : outcome (option (option Z)) :=
  match fuel with
  | O => Block
  | S fuel' =>
      match Py.readline (Stream buf closed) with
      | Return line rest =>
          if is_empty line then Return None rest
          else if Bytes.eqb line Bytes.CRLF then Return (Some content_length) rest
          else if Bytes.startswith (Bytes.lower line) (Bytes.lit "content-length:")
          then match Bytes.split_colon line with
               | Some (_, after) =>
                   match Bytes.int (Bytes.strip after) with
                   | Some n => header_loop fuel' closed rest (Some n)
                   | None => Raise (ValueError (Bytes.int_error (Bytes.strip after))) rest
                   end
               | None => Raise (IndexError "list index out of range") rest
               end
          else header_loop fuel' closed rest content_length
      | Raise e rest => Raise e rest
      | Block => Block
      end
  end.

(** The loop run from [content_length = None]; every turn that goes on
    consumes a byte, so the fuel is never used up. *)
Definition headers (s : stream) : outcome (option (option Z)) :=
  header_loop (S (List.length (buf s))) (closed s) (buf s) None.

(** [f"Content-Length: {len}\r\n\r\n".encode("utf-8")] *)
Definition header (len : Z) : list byte :=
  Bytes.lit "Content-Length: " ++ Bytes.of_int len ++ Bytes.CRLF ++ Bytes.CRLF.

(** What the two [_send] write: the header with [len(body)], then the
    body. *)
Definition frame (body : list byte) : list byte :=
  header (Z.of_nat (List.length body)) ++ body.

End Frame.

(** ** [services.py] *)
Module services.

Open Scope string_scope.

Section WithLibrary.

Variable L : library.

(** [diagnostics(obd_code)]; [clock] counts the readings of the clock. *)
Definition diagnostics (clock : nat) (obd_code : value) : result (value * nat) :=
  match obd_code with
  | VStr code =>
      let severity := if prefix "P03" code then "medium" else "low" in
      Ok (VDict [
            ("service", VStr "Diagnostics");
            ("timestamp", VStr (utcnow_isoformat L clock ++ "Z"));
            ("obd_code", obd_code);
            ("severity", VStr severity);
            ("summary", VStr (if code =? "P0301"
                              then "Engine misfire detected on cylinder 1"
                              else "Generic diagnostic result"))
          ], S clock)
  | _ => Err (Py.no_attribute obd_code "startswith")
  end.

End WithLibrary.

Definition navigation (destination : value) : value :=
  VDict [
    ("service", VStr "Navigation");
    ("destination", destination);
    ("distance_km", VInt 24);
    ("eta_minutes", VInt 38);
    ("route_risk_zone", VStr "moderate")
  ].

Definition weather (route_region : value) : value :=
  VDict [
    ("service", VStr "Weather");
    ("region", route_region);
    ("condition", VStr "heavy rain");
    ("visibility", VStr "reduced");
    ("risk_level", VStr "high")
  ].

(** [v > 40000]: defined on [int] and [bool] ([True] is 1); the
    interpreter compares a [float] as well, which [value] leaves out. *)
Definition gt_40000 (v : value) : result bool :=
  match v with
  | VInt z => Ok (40000 <? z)%Z
  | VBool _ => Ok false
  | _ => Err (TypeError ("'>' not supported between instances of '"
                         ++ Py.type_name v ++ "' and 'int'"))
  end.

Definition maintenance (current_mileage : value) : result value :=
  over <- gt_40000 current_mileage ;;
  let overdue := if over then [VStr "brake fluid"; VStr "air filter"] else [] in
  Ok (VDict [
        ("service", VStr "Maintenance");
        ("mileage", current_mileage);
        ("overdue_items", VList overdue);
        ("recommended_window_days",
         VInt (if Py.truthy (VList overdue) then 7 else 30))
      ]).

(** Looking [v] up in a set or as a key hashes it first. *)
Definition hashable (v : value) : result unit :=
  match v with
  | VList _ | VDict _ => Err (TypeError ("unhashable type: '" ++ Py.type_name v ++ "'"))
  | _ => Ok tt
  end.

Definition emergency (risk_level : value) : result value :=
  _ <- hashable risk_level ;;
  let recommendation :=
    if Py.eq_str risk_level "high" || Py.eq_str risk_level "severe"
    then "Avoid travel and keep roadside assistance on standby"
    else "Drive with caution and monitor conditions" in
  Ok (VDict [
        ("service", VStr "Emergency");
        ("risk_level", risk_level);
        ("recommendation", VStr recommendation)
      ]).

Definition knowledge (topic : value) : result value :=
  _ <- hashable topic ;;
  let explanation :=
    if Py.eq_str topic "P0301"
    then "Misfire in cylinder 1 can impact fuel economy and emissions."
    else if Py.eq_str topic "heavy rain"
    then "Reduced visibility and braking performance increase stopping distance."
    else "General automotive guidance." in
  Ok (VDict [
        ("service", VStr "Knowledge");
        ("topic", topic);
        ("explanation", VStr explanation)
      ]).

Definition vehicle_info (vin : value) : value :=
  VDict [
    ("service", VStr "Vehicle Info");
    ("vin", vin);
    ("model", VStr "Demo EV Sedan");
    ("year", VInt 2022);
    ("mileage", VInt 42000)
  ].

End services.

(** ** [mcp_server.py] *)
Module Server.

Open Scope string_scope.

Definition PROTOCOL_VERSION : string := "2024-11-05".

Definition schema (property type : string) : value :=
  VDict [
    ("type", VStr "object");
    ("properties", VDict [(property, VDict [("type", VStr type)])]);
    ("required", VList [])
  ].

(** An entry of [TOOLS]: a [dict] with exactly these two keys. *)
Record spec : Type := Spec { description : string; inputSchema : value }.

Definition tool_spec (description property type : string) : spec :=
  Spec description (schema property type).

(** The table [TOOLS], in the order of its definition. *)
Definition TOOLS : list (string * spec) := [
  ("diagnostics",
   tool_spec "Run diagnostics for a given OBD-II trouble code." "obd_code" "string");
  ("navigation",
   tool_spec "Get route guidance for a destination." "destination" "string");
  ("weather",
   tool_spec "Get weather conditions and risk for a region." "route_region" "string");
  ("maintenance",
   tool_spec "Get maintenance recommendations based on mileage." "current_mileage" "integer");
  ("emergency",
   tool_spec "Get emergency driving recommendation for a risk level." "risk_level" "string");
  ("knowledge",
   tool_spec "Get automotive knowledge/explanation for a topic or code." "topic" "string");
  ("vehicle_info",
   tool_spec "Get current vehicle profile details." "vin" "string")
].

(** How the process stands when [main] stops running: it has left the loop,
    an exception has escaped, or it waits in a read on an open pipe with
    [pending] unread. *)
Inductive status : Type :=
| Exited
| Crashed (e : exn)
| Waiting (pending : list byte) (clock : nat).

Section WithLibrary.

Variable L : library.

(** [_send(payload)]: the bytes written to stdout. *)
Definition _send (payload : value) : list byte := Frame.frame (dumps L payload).

(** [_read_message()] on stdin; the result [VNone] is [None]. *)
Definition _read_message (stdin : stream) : outcome value :=
  match Frame.headers stdin with
  | Return None rest => Return VNone rest
  | Return (Some None) rest => Return VNone rest
  | Return (Some (Some content_length)) rest =>
      match Py.read content_length (Stream rest (closed stdin)) with
      | Return body rest' =>
          if Frame.is_empty body then Return VNone rest'
          else match loads L body with
               | Some v => Return v rest'
               | None => Raise JSONDecodeError rest'
               end
      | Raise e rest' => Raise e rest'
      | Block => Block
      end
  | Raise e rest => Raise e rest
  | Block => Block
  end.

(** The last line of [_tool_call]. *)
Definition tool_result (result : value) : value :=
  VDict [
    ("content", VList [VDict [("type", VStr "text");
                              ("text", VStr (string_of_list_byte (dumps L result)))]]);
    ("isError", VBool false)
  ].

Definition _tool_call (clock : nat) (name arguments : value) : result (value * nat) :=
  if Py.eq_str name "diagnostics" then
    a <- Py.get arguments "obd_code" (VStr "P0301") ;;
    r <- services.diagnostics L clock a ;;
    Ok (tool_result (fst r), snd r)
  else if Py.eq_str name "navigation" then
    a <- Py.get arguments "destination" (VStr "Office") ;;
    Ok (tool_result (services.navigation a), clock)
  else if Py.eq_str name "weather" then
    a <- Py.get arguments "route_region" (VStr "city") ;;
    Ok (tool_result (services.weather a), clock)
  else if Py.eq_str name "maintenance" then
    a <- Py.get arguments "current_mileage" (VInt 42000) ;;
    r <- services.maintenance a ;;
    Ok (tool_result r, clock)
  else if Py.eq_str name "emergency" then
    a <- Py.get arguments "risk_level" (VStr "low") ;;
    r <- services.emergency a ;;
    Ok (tool_result r, clock)
  else if Py.eq_str name "knowledge" then
    a <- Py.get arguments "topic" (VStr "P0301") ;;
    r <- services.knowledge a ;;
    Ok (tool_result r, clock)
  else if Py.eq_str name "vehicle_info" then
    a <- Py.get arguments "vin" (VStr "DEMO-VIN-123") ;;
    Ok (tool_result (services.vehicle_info a), clock)
  else Err (ValueError ("Unknown tool: " ++ Text.str L name)).

Definition response (request_id result : value) : value :=
  VDict [("jsonrpc", VStr "2.0"); ("id", request_id); ("result", result)].

Definition error_response (request_id : value) (code : Z) (message : string) : value :=
  VDict [("jsonrpc", VStr "2.0"); ("id", request_id);
         ("error", VDict [("code", VInt code); ("message", VStr message)])].

(** [if request_id is not None: _send(payload)] *)
Definition reply (request_id payload : value) : list byte :=
  if Py.is_none request_id then [] else _send payload.

Definition initialize_result : value :=
  VDict [
    ("protocolVersion", VStr PROTOCOL_VERSION);
    ("capabilities", VDict [("tools", VDict [])]);
    ("serverInfo", VDict [("name", VStr "automotive-playground");
                          ("version", VStr "1.0.0")])
  ].

(** The list built for [tools/list] from [TOOLS.items()]. *)
Definition tools_list : value :=
  VList (map (fun entry =>
                VDict [("name", VStr (fst entry));
                       ("description", VStr (description (snd entry)));
                       ("inputSchema", inputSchema (snd entry))])
             TOOLS).

(** The argument expressions of the call of [_tool_call] in [main], and the
    call: all inside the [try]. *)
Definition try_tool_call (clock : nat) (params : value) : result (value * nat) :=
  name <- Py.get params "name" (VStr "") ;;
  arguments <- Py.get params "arguments" (VDict []) ;;
  _tool_call clock name (if Py.truthy arguments then arguments else VDict []).

(** One turn of the loop of [main] after [request] has been read and found
    not to be [None]: the bytes written and the clock, or the exception that
    escapes. *)
Definition main_body (clock : nat) (request : value) : result (list byte * nat) :=
  method <- Py.get request "method" VNone ;;
  request_id <- Py.get request "id" VNone ;;
  if Py.eq_str method "initialize" then
    Ok (reply request_id (response request_id initialize_result), clock)
  else if Py.eq_str method "notifications/initialized" then
    Ok ([], clock)
  else if Py.eq_str method "tools/list" then
    Ok (reply request_id (response request_id (VDict [("tools", tools_list)])), clock)
  else if Py.eq_str method "tools/call" then
    params <- Py.get request "params" (VDict []) ;;
    match try_tool_call clock params with
    | Ok (result, clock') => Ok (reply request_id (response request_id result), clock')
    | Err exc =>
        Ok (reply request_id (error_response request_id (-32000) (Py.str_exc exc)), clock)
    end
  else
    Ok (reply request_id
          (error_response request_id (-32601) ("Method not found: " ++ Text.str L method)),
        clock).

(** The loop of [main]: what is written to stdout, and how the process
    stands afterwards. *)
Fixpoint main_loop (fuel : nat) (stdin : stream) (clock : nat) : list byte * status :=
  match fuel with
  | O => ([], Waiting (buf stdin) clock)
  | S fuel' =>
      match _read_message stdin with
      | Return request rest =>
          if Py.is_none request then ([], Exited)
          else match main_body clock request with
               | Ok (out, clock') =>
                   let (out', st) := main_loop fuel' (Stream rest (closed stdin)) clock' in
                   ((out ++ out')%list, st)
               | Err e => ([], Crashed e)
               end
      | Raise e _ => ([], Crashed e)
      | Block => ([], Waiting (buf stdin) clock)
      end
  end.

(** Every message read consumes a byte, so the fuel is never used up. *)
Definition main (stdin : stream) (clock : nat) : list byte * status :=
  main_loop (S (List.length (buf stdin))) stdin clock.

End WithLibrary.

End Server.

(** ** [llm_client.py] *)

(** How a call on the client ends: it returns, it raises, or it never
    returns because it waits for bytes that the server will not send. *)
Inductive call (A : Type) : Type :=
| Returned (a : A)
| Failed (e : exn)
| Hangs.

Arguments Returned {A} a.
Arguments Failed {A} e.
Arguments Hangs {A}.

Module Client.

Open Scope string_scope.

Definition PROTOCOL_VERSION : string := "2024-11-05".

Definition SYSTEM_PROMPT : string :=
  "You are an automotive assistant. Use provided tools when needed, and return clear, safe advice.".

(** The client object with the child process it owns: how the server
    stands, the bytes the server has written that the client has not read,
    and the counter.  [sent] is the history of the payloads that [_send] was
    called with, kept for the statements only. *)
Record McpStdioClient : Type := {
  server : Server.status;
  stdout : list byte;
  _next_id : Z;
  sent : list value
}.

Definition with_stdout (c : McpStdioClient) (bytes : list byte) : McpStdioClient :=
  {| server := server c; stdout := bytes; _next_id := _next_id c; sent := sent c |}.

Definition with_next_id (c : McpStdioClient) (n : Z) : McpStdioClient :=
  {| server := server c; stdout := stdout c; _next_id := n; sent := sent c |}.

(** The server's stdout is at its end once the server runs no more. *)
Definition stdout_closed (c : McpStdioClient) : bool :=
  match server c with
  | Server.Waiting _ _ => false
  | _ => true
  end.

Section WithLibrary.

Variable L : library.

(** [__init__]: the child process starts [main] on an empty, open stdin. *)
Definition __init__ : McpStdioClient :=
  let (out, st) := Server.main L (Stream [] false) 0 in
  {| server := st; stdout := out; _next_id := 1; sent := [] |}.

(** [_send(payload)]: the frame reaches the server, which runs until it
    waits for input again or stops; writing to a server that runs no more
    fails. *)
Definition _send (c : McpStdioClient) (payload : value)
  : McpStdioClient * result unit :=
  match server c with
  | Server.Waiting pending clock =>
      let (out, st) :=
        Server.main L (Stream (pending ++ Frame.frame (dumps L payload))%list false) clock in
      ({| server := st; stdout := (stdout c ++ out)%list;
          _next_id := _next_id c; sent := (sent c ++ [payload])%list |}, Ok tt)
  | _ =>
      ({| server := server c; stdout := stdout c;
          _next_id := _next_id c; sent := (sent c ++ [payload])%list |},
       Err BrokenPipeError)
  end.

(** [_read()] on the server's stdout. *)
Definition _read (stdout : stream) : outcome value :=
  match Frame.headers stdout with
  | Return None rest => Raise (RuntimeError "MCP server closed stdout") rest
  | Return (Some None) rest =>
      Raise (RuntimeError "Invalid MCP frame: missing Content-Length") rest
  | Return (Some (Some content_length)) rest =>
      match Py.read content_length (Stream rest (closed stdout)) with
      | Return body rest' =>
          match loads L body with
          | Some v => Return v rest'
          | None => Raise JSONDecodeError rest'
          end
      | Raise e rest' => Raise e rest'
      | Block => Block
      end
  | Raise e rest => Raise e rest
  | Block => Block
  end.

(** The payload of a request ([req_id] given) or of a notification. *)
Definition payload (req_id : option Z) (method : string) (params : option value) : value :=
  VDict ([("jsonrpc", VStr "2.0")]
         ++ match req_id with Some i => [("id", VInt i)] | None => [] end
         ++ [("method", VStr method)]
         ++ match params with Some p => [("params", p)] | None => [] end)%list.

(** Lines 68-74 of [request]: the counter, the payload, [_send], [_read]. *)
Definition exchange (c : McpStdioClient) (method : string) (params : option value)
  : McpStdioClient * call value :=
  let req_id := _next_id c in
  let c := with_next_id c (req_id + 1) in
  let (c', written) := _send c (payload (Some req_id) method params) in
  match written with
  | Ok _ =>
      match _read (Stream (stdout c') (stdout_closed c')) with
      | Return response rest => (with_stdout c' rest, Returned response)
      | Raise e rest => (with_stdout c' rest, Failed e)
      | Block => (c', Hangs)
      end
  | Err e => (c', Failed e)
  end.

(** ["error" in response] *)
Definition has_error (response : value) : result bool :=
  match response with
  | VDict items => Ok (match Py.lookup "error" items with Some _ => true | None => false end)
  | VList items => Ok (existsb (fun v => Py.eq_str v "error") items)
  | VStr s => Ok (Text.contains "error" s)
  | _ => Err (TypeError ("argument of type '" ++ Py.type_name response ++ "' is not iterable"))
  end.

(** Lines 75-77 of [request]. *)
Definition unwrap (response : value) : result value :=
  is_error <- has_error response ;;
  if is_error : bool then
    error <- Py.item response "error" ;;
    message <- Py.get error "message" (VStr "Unknown MCP error") ;;
    Err (RuntimeError (Text.str L message))
  else Py.item response "result".

Definition request (c : McpStdioClient) (method : string) (params : option value)
  : McpStdioClient * call value :=
  let (c', r) := exchange c method params in
  match r with
  | Returned response =>
      match unwrap response with
      | Ok v => (c', Returned v)
      | Err e => (c', Failed e)
      end
  | Failed e => (c', Failed e)
  | Hangs => (c', Hangs)
  end.

Definition notify (c : McpStdioClient) (method : string) (params : option value)
  : McpStdioClient * call unit :=
  let (c', written) := _send c (payload None method params) in
  match written with
  | Ok _ => (c', Returned tt)
  | Err e => (c', Failed e)
  end.

End WithLibrary.


(** *** The tool-calling loop *)
Section Flow.

Variable L : library.

(** The external model: [_openai_chat(model, messages, tools)] answers or
    raises, and the world it lives in moves on. *)
Variable World : Type.
Variable _openai_chat :
  World -> string -> list value -> list value -> result value * World.

(** The state of [run_llm_flow] inside the loop.  [chat_log] is the history
    of what [_openai_chat] gave, kept for the statements only. *)
Record flow : Type := {
  client : McpStdioClient;
  world : World;
  messages : list value;
  chat_log : list (result value)
}.

Definition initialize_params : value :=
  VDict [
    ("protocolVersion", VStr PROTOCOL_VERSION);
    ("capabilities", VDict []);
    ("clientInfo", VDict [("name", VStr "local-cli"); ("version", VStr "1.0.0")])
  ].

(** An element of the comprehension [oa_tools]. *)
Definition oa_tool (t : value) : result value :=
  name <- Py.item t "name" ;;
  description <- Py.get t "description" (VStr "") ;;
  parameters <- Py.get t "inputSchema"
                  (VDict [("type", VStr "object"); ("properties", VDict [])]) ;;
  Ok (VDict [
        ("type", VStr "function");
        ("function", VDict [("name", name);
                            ("description", description);
                            ("parameters", parameters)])
      ]).

Fixpoint map_result {A B : Type} (f : A -> result B) (l : list A) : result (list B) :=
  match l with
  | [] => Ok []
  | x :: l' => y <- f x ;; ys <- map_result f l' ;; Ok (y :: ys)
  end.

(** [json.loads(x)] for a value [x] that should be a [str]. *)
Definition json_loads (x : value) : result value :=
  match x with
  | VStr s =>
      match loads L (list_byte_of_string s) with
      | Some v => Ok v
      | None => Err JSONDecodeError
      end
  | _ => Err (TypeError ("the JSON object must be str, bytes or bytearray, not "
                         ++ Py.type_name x))
  end.

(** The loop over [tool_result.get("content", [])], from [tool_text]. *)
Fixpoint concat_text (tool_text : string) (items : list value) : result string :=
  match items with
  | [] => Ok tool_text
  | item :: items' =>
      type <- Py.get item "type" VNone ;;
      if Py.eq_str type "text" then
        text <- Py.get item "text" (VStr "") ;;
        match text with
        | VStr t => concat_text (tool_text ++ t) items'
        | _ => Err (TypeError ("can only concatenate str (not "
                               ++ String "034" (Py.type_name text ++ String "034" ") to str")))
        end
      else concat_text tool_text items'
  end.

(** The name and the arguments of the tool call [tc]. *)
Definition tool_call_parts (tc : value) : result (value * value) :=
  function <- Py.item tc "function" ;;
  tool_name <- Py.item function "name" ;;
  text <- Py.get function "arguments" (VStr "{}") ;;
  arguments <- json_loads text ;;
  Ok (tool_name, arguments).

(** The message appended for [tc] once [tool_result] has come back. *)
Definition tool_message (tc tool_name tool_result : value) : result value :=
  content <- Py.get tool_result "content" (VList []) ;;
  items <- Py.iter content ;;
  tool_text <- concat_text "" items ;;
  id <- Py.item tc "id" ;;
  Ok (VDict [
        ("role", VStr "tool");
        ("tool_call_id", id);
        ("name", tool_name);
        ("content", VStr tool_text)
      ]).

(** The body of [for tc in tool_calls]. *)
Definition dispatch (c : McpStdioClient) (tc : value) : McpStdioClient * call value :=
  match tool_call_parts tc with
  | Ok (tool_name, arguments) =>
      let (c', r) :=
        request L c "tools/call"
          (Some (VDict [("name", tool_name); ("arguments", arguments)])) in
      match r with
      | Returned tool_result =>
          match tool_message tc tool_name tool_result with
          | Ok m => (c', Returned m)
          | Err e => (c', Failed e)
          end
      | Failed e => (c', Failed e)
      | Hangs => (c', Hangs)
      end
  | Err e => (c, Failed e)
  end.

Fixpoint dispatch_all (c : McpStdioClient) (messages : list value) (tool_calls : list value)
  : McpStdioClient * call (list value) :=
  match tool_calls with
  | [] => (c, Returned messages)
  | tc :: tool_calls' =>
      let (c', r) := dispatch c tc in
      match r with
      | Returned m => dispatch_all c' (messages ++ [m])%list tool_calls'
      | Failed e => (c', Failed e)
      | Hangs => (c', Hangs)
      end
  end.

(** [response["choices"][0]["message"]] *)
Definition message_of (response : value) : result value :=
  choices <- Py.item response "choices" ;;
  choice <- Py.item0 choices ;;
  Py.item choice "message".

Definition SENTINEL : string := "Stopped after max tool-call iterations.".

(** [for _ in range(remaining): ...], then the [return] after the loop. *)
Fixpoint tool_loop (model : string) (oa_tools : list value) (remaining : nat) (st : flow)
  : flow * call value :=
  match remaining with
  | O => (st, Returned (VStr SENTINEL))
  | S remaining' =>
      let (r, w) := _openai_chat (world st) model (messages st) oa_tools in
      let st1 := {| client := client st; world := w; messages := messages st;
                    chat_log := (chat_log st ++ [r])%list |} in
      match r with
      | Err e => (st1, Failed e)
      | Ok response =>
          match message_of response with
          | Err e => (st1, Failed e)
          | Ok message =>
              let st2 := {| client := client st1; world := w;
                            messages := (messages st ++ [message])%list;
                            chat_log := chat_log st1 |} in
              match Py.get message "tool_calls" (VList []) with
              | Err e => (st2, Failed e)
              | Ok tool_calls =>
                  if negb (Py.truthy tool_calls) then
                    match Py.get message "content" (VStr "") with
                    | Ok content =>
                        (st2, Returned (if Py.truthy content then content else VStr ""))
                    | Err e => (st2, Failed e)
                    end
                  else
                    match Py.iter tool_calls with
                    | Err e => (st2, Failed e)
                    | Ok tcs =>
                        let (c', r') := dispatch_all (client st2) (messages st2) tcs in
                        match r' with
                        | Returned messages' =>
                            tool_loop model oa_tools remaining'
                              {| client := c'; world := w; messages := messages';
                                 chat_log := chat_log st2 |}
                        | Failed e =>
                            ({| client := c'; world := w; messages := messages st2;
                                chat_log := chat_log st2 |}, Failed e)
                        | Hangs =>
                            ({| client := c'; world := w; messages := messages st2;
                                chat_log := chat_log st2 |}, Hangs)
                        end
                    end
              end
          end
      end
  end.

(** [run_llm_flow(prompt, model, server_cmd)], where the command starts this
    server.  The [finally] clause ends the child process and changes nothing
    in the result. *)
Definition run_llm_flow (w : World) (prompt model : string) : flow * call value :=
  let start c := {| client := c; world := w; messages := []; chat_log := [] |} in
  let c0 := __init__ L in
  let (c1, r1) := request L c0 "initialize" (Some initialize_params) in
  match r1 with
  | Returned _ =>
      let (c2, r2) := notify L c1 "notifications/initialized" None in
      match r2 with
      | Returned _ =>
          let (c3, r3) := request L c2 "tools/list" None in
          match r3 with
          | Returned listed =>
              match (mcp_tools <- Py.item listed "tools" ;;
                     ts <- Py.iter mcp_tools ;;
                     map_result oa_tool ts) with
              | Ok oa_tools =>
                  tool_loop model oa_tools 8
                    {| client := c3; world := w;
                       messages := [VDict [("role", VStr "system");
                                           ("content", VStr SYSTEM_PROMPT)];
                                    VDict [("role", VStr "user");
                                           ("content", VStr prompt)]];
                       chat_log := [] |}
              | Err e => (start c3, Failed e)
              end
          | Failed e => (start c3, Failed e)
          | Hangs => (start c3, Hangs)
          end
      | Failed e => (start c2, Failed e)
      | Hangs => (start c2, Hangs)
      end
  | Failed e => (start c1, Failed e)
  | Hangs => (start c1, Hangs)
  end.

End Flow.

End Client.

(** ** A JSON codec

    An instance of the library, to run the model on concrete inputs: the
    text that [json.dumps] writes with its default separators, for values
    whose strings are ASCII.  [decode] reads this text and no other JSON
    (no other spacing, no floats), and keeps a key that is repeated; it
    serves where the theorems are run, and no theorem rests on it. *)
Module Json.

Definition hex_byte (n : N) : byte :=
  match n with
  | 0 => x30 | 1 => x31 | 2 => x32 | 3 => x33 | 4 => x34 | 5 => x35
  | 6 => x36 | 7 => x37 | 8 => x38 | 9 => x39 | 10 => x61 | 11 => x62
  | 12 => x63 | 13 => x64 | 14 => x65 | _ => x66
  end%N.

Definition hex_value (c : byte) : option N :=
  match c with
  | x30 => Some 0 | x31 => Some 1 | x32 => Some 2 | x33 => Some 3
  | x34 => Some 4 | x35 => Some 5 | x36 => Some 6 | x37 => Some 7
  | x38 => Some 8 | x39 => Some 9 | x61 => Some 10 | x62 => Some 11
  | x63 => Some 12 | x64 => Some 13 | x65 => Some 14 | x66 => Some 15
  | _ => None
  end%N.

(** A byte inside a string literal. *)
Definition escape (c : byte) : list byte :=
  match c with
  | x22 => [x5c; x22]
  | x5c => [x5c; x5c]
  | x0a => [x5c; x6e]
  | x0d => [x5c; x72]
  | x09 => [x5c; x74]
  | x08 => [x5c; x62]
  | x0c => [x5c; x66]
  | _ =>
      if (Byte.to_N c <? 32)%N
      then [x5c; x75; x30; x30; hex_byte (Byte.to_N c / 16); hex_byte (Byte.to_N c mod 16)]
      else [c]
  end.

Definition encode_string (s : string) : list byte :=
  x22 :: flat_map escape (list_byte_of_string s) ++ [x22].

(** The items after the first, and the closing bracket. *)
Fixpoint items_tail (enc : value -> list byte) (vs : list value) : list byte :=
  match vs with
  | [] => [x5d]
  | v :: vs' => x2c :: x20 :: enc v ++ items_tail enc vs'
  end.

Fixpoint members_tail (enc : value -> list byte) (kvs : list (string * value)) : list byte :=
  match kvs with
  | [] => [x7d]
  | kv :: kvs' =>
      x2c :: x20 :: encode_string (fst kv) ++ x3a :: x20 :: enc (snd kv)
      ++ members_tail enc kvs'
  end.

Fixpoint encode (v : value) : list byte :=
  match v with
  | VNone => Bytes.lit "null"
  | VBool true => Bytes.lit "true"
  | VBool false => Bytes.lit "false"
  | VInt z => Bytes.of_int z
  | VStr s => encode_string s
  | VList [] => [x5b; x5d]
  | VList (v0 :: vs) => x5b :: encode v0 ++ items_tail encode vs
  | VDict [] => [x7b; x7d]
  | VDict (kv :: kvs) =>
      x7b :: encode_string (fst kv) ++ x3a :: x20 :: encode (snd kv)
      ++ members_tail encode kvs
  end.

(** [expect p l]: [l] without its prefix [p]. *)
Definition expect (p l : list byte) : option (list byte) :=
  if Bytes.startswith l p then Some (skipn (List.length p) l) else None.

Definition unescape (e : byte) : option byte :=
  match e with
  | x22 => Some x22
  | x5c => Some x5c
  | x2f => Some x2f
  | x6e => Some x0a
  | x72 => Some x0d
  | x74 => Some x09
  | x62 => Some x08
  | x66 => Some x0c
  | _ => None
  end.

(** A four-digit escape that names an ASCII character. *)
Definition unescape_u (h1 h2 h3 h4 : byte) : option byte :=
  match hex_value h1, hex_value h2, hex_value h3, hex_value h4 with
  | Some 0%N, Some 0%N, Some a, Some b =>
      if (a <? 8)%N then Byte.of_N (16 * a + b) else None
  | _, _, _, _ => None
  end.

(** The characters of a string literal after its opening quote. *)
Fixpoint parse_chars (l : list byte) : option (list byte * list byte) :=
  match l with
  | [] => None
  | c :: l' =>
      if Byte.eqb c x22 then Some ([], l')
      else if Byte.eqb c x5c then
        match l' with
        | [] => None
        | e :: l'' =>
            if Byte.eqb e x75 then
              match l'' with
              | h1 :: h2 :: h3 :: h4 :: l5 =>
                  match unescape_u h1 h2 h3 h4, parse_chars l5 with
                  | Some b, Some (bs, rest) => Some (b :: bs, rest)
                  | _, _ => None
                  end
              | _ => None
              end
            else
              match unescape e, parse_chars l'' with
              | Some b, Some (bs, rest) => Some (b :: bs, rest)
              | _, _ => None
              end
        end
      else if (Byte.to_N c <? 32)%N then None
      else match parse_chars l' with
           | Some (bs, rest) => Some (c :: bs, rest)
           | None => None
           end
  end.

Definition parse_string (l : list byte) : option (string * list byte) :=
  match expect [x22] l with
  | Some l' =>
      match parse_chars l' with
      | Some (bs, rest) => Some (string_of_list_byte bs, rest)
      | None => None
      end
  | None => None
  end.

Fixpoint span_digits (l : list byte) : list byte * list byte :=
  match l with
  | c :: l' =>
      match Bytes.digit_value c with
      | Some _ => let (ds, rest) := span_digits l' in (c :: ds, rest)
      | None => ([], l)
      end
  | [] => ([], [])
  end.

Definition parse_int (l : list byte) : option (Z * list byte) :=
  match l with
  | x2d :: l' =>
      let (ds, rest) := span_digits l' in
      option_map (fun n => (- n, rest)) (Bytes.int_digits 0 false ds)
  | _ =>
      let (ds, rest) := span_digits l in
      option_map (fun n => (n, rest)) (Bytes.int_digits 0 false ds)
  end.

Fixpoint parse_value (fuel : nat) (l : list byte) : option (value * list byte) :=
  match fuel with
  | O => None
  | S fuel' =>
      match expect (Bytes.lit "null") l with Some rest => Some (VNone, rest) | None =>
      match expect (Bytes.lit "true") l with Some rest => Some (VBool true, rest) | None =>
      match expect (Bytes.lit "false") l with Some rest => Some (VBool false, rest) | None =>
      match expect [x5b; x5d] l with Some rest => Some (VList [], rest) | None =>
      match expect [x7b; x7d] l with Some rest => Some (VDict [], rest) | None =>
      match expect [x5b] l with
      | Some l1 =>
          match parse_value fuel' l1 with
          | Some (v, l2) =>
              match parse_items fuel' l2 with
              | Some (vs, rest) => Some (VList (v :: vs), rest)
              | None => None
              end
          | None => None
          end
      | None =>
      match expect [x7b] l with
      | Some l1 =>
          match parse_member fuel' l1 with
          | Some (kv, l2) =>
              match parse_members fuel' l2 with
              | Some (kvs, rest) => Some (VDict (kv :: kvs), rest)
              | None => None
              end
          | None => None
          end
      | None =>
      match parse_string l with
      | Some (s, rest) => Some (VStr s, rest)
      | None =>
          match parse_int l with
          | Some (z, rest) => Some (VInt z, rest)
          | None => None
          end
      end end end end end end end end
  end
with parse_items (fuel : nat) (l : list byte) : option (list value * list byte) :=
  match fuel with
  | O => None
  | S fuel' =>
      match expect [x5d] l with Some rest => Some ([], rest) | None =>
      match expect [x2c; x20] l with
      | Some l1 =>
          match parse_value fuel' l1 with
          | Some (v, l2) =>
              match parse_items fuel' l2 with
              | Some (vs, rest) => Some (v :: vs, rest)
              | None => None
              end
          | None => None
          end
      | None => None
      end end
  end
with parse_member (fuel : nat) (l : list byte) : option ((string * value) * list byte) :=
  match fuel with
  | O => None
  | S fuel' =>
      match parse_string l with
      | Some (k, l1) =>
          match expect [x3a; x20] l1 with
          | Some l2 =>
              match parse_value fuel' l2 with
              | Some (v, rest) => Some ((k, v), rest)
              | None => None
              end
          | None => None
          end
      | None => None
      end
  end
with parse_members (fuel : nat) (l : list byte)
  : option (list (string * value) * list byte) :=
  match fuel with
  | O => None
  | S fuel' =>
      match expect [x7d] l with Some rest => Some ([], rest) | None =>
      match expect [x2c; x20] l with
      | Some l1 =>
          match parse_member fuel' l1 with
          | Some (kv, l2) =>
              match parse_members fuel' l2 with
              | Some (kvs, rest) => Some (kv :: kvs, rest)
              | None => None
              end
          | None => None
          end
      | None => None
      end end
  end.

(** The whole input is one value. *)
Definition decode (l : list byte) : option value :=
  match parse_value (S (List.length l)) l with
  | Some (v, []) => Some v
  | _ => None
  end.

Definition lib : library := {|
  dumps := encode;
  loads := decode;
  utcnow_isoformat := fun n => ("2024-01-01T00:00:0" ++ str_of_int (Z.of_nat n))%string;
  repr_str := fun s => ("'" ++ s ++ "'")%string
|}.

End Json.

(** * Vocabulary of the statements *)

Unset Implicit Arguments.
Local Open Scope string_scope.
Local Open Scope Z_scope.
Local Open Scope list_scope.

(** ** Bytes and decimal numbers *)

(** A decimal digit: it has a value, it is no white space, no sign and no
    line feed. *)
Definition is_digit (c : byte) : Prop := exists d, Bytes.digit_value c = Some d.

(** The value of a run of digits read from the left. *)
Definition digits_value (acc : Z) (ds : list byte) : Z :=
  fold_left (fun a c => 10 * a + match Bytes.digit_value c with Some d => d | None => 0 end)
            ds acc.

(** The digits of a natural number, most significant first. *)
Definition digits (n : Z) : list byte :=
  rev (Bytes.digits_le (S (Z.to_nat (Z.log2 n))) n).

(** [strip] removes the white space around a word that neither starts nor
    ends with white space. *)
Definition clean (l : list byte) : Prop :=
  match l with [] => True | c :: _ => Bytes.is_space c = false end
  /\ match rev l with [] => True | c :: _ => Bytes.is_space c = false end.

(** No byte of [l] is a line feed. *)
Definition no_LF (l : list byte) : Prop :=
  Forall (fun c => Byte.eqb c Bytes.LF = false) l.

(** A complete line: it ends with its only line feed. *)
Definition complete_line (line : list byte) : Prop :=
  exists l, line = l ++ [Bytes.LF] /\ no_LF l.

(** ** Frames *)

(** The line that [_send] writes, with any number [n]. *)
Definition content_length_line (n : Z) : list byte :=
  Bytes.lit "Content-Length: " ++ Bytes.of_int n ++ Bytes.CRLF.

(** A [tools/call] request for the maintenance tool. *)
Definition sample_request : value :=
  VDict [("jsonrpc", VStr "2.0"); ("id", VInt 1); ("method", VStr "tools/call");
         ("params", VDict [("name", VStr "maintenance");
                           ("arguments", VDict [("current_mileage", VInt 45000)])])].

(** ** Header lines *)






(** ** Sample streams *)



(** ** Dispatch *)

(** [name] is one of the keys of [TOOLS]. *)
Definition registered (name : value) : bool :=
  existsb (Py.eq_str name) (map fst Server.TOOLS).

(** [method] is one of the four methods that [main] knows. *)
Definition known_method (method : value) : bool :=
  Py.eq_str method "initialize" || Py.eq_str method "notifications/initialized"
  || Py.eq_str method "tools/list" || Py.eq_str method "tools/call".

(** The frame carries an id: [request.get("id")] is not [None]. *)
Definition has_id (request : value) : bool :=
  match Py.get request "id" VNone with
  | Ok request_id => negb (Py.is_none request_id)
  | Err _ => false
  end.

(** The handler of each tool, called with the default value that
    [services.py] declares for its parameter. *)
Definition handler_default (L : library) (tool : string) (clock : nat)
  : result (value * nat) :=
  if (tool =? "diagnostics")%string then services.diagnostics L clock (VStr "P0301")
  else if (tool =? "navigation")%string then Ok (services.navigation (VStr "Office"), clock)
  else if (tool =? "weather")%string then Ok (services.weather (VStr "city"), clock)
  else if (tool =? "maintenance")%string then
    r <- services.maintenance (VInt 42000) ;; Ok (r, clock)
  else if (tool =? "emergency")%string then
    r <- services.emergency (VStr "low") ;; Ok (r, clock)
  else if (tool =? "knowledge")%string then
    r <- services.knowledge (VStr "P0301") ;; Ok (r, clock)
  else Ok (services.vehicle_info (VStr "DEMO-VIN-123"), clock).

(** ** Calls on the client *)

(** The JSON codec carries every value faithfully, and the empty text is no
    JSON. *)
Definition codec (L : library) : Prop :=
  (forall v, loads L (dumps L v) = Some v) /\ loads L [] = None.

(** A call on the client. *)
Inductive op : Type :=
| Request (method : string) (params : option value)
| Notify (method : string) (params : option value).

(** The ids of the requests among the payloads [_send] was called with. *)
Definition ids (payloads : list value) : list value :=
  flat_map (fun p => match p with
                     | VDict items =>
                         match Py.lookup "id" items with
                         | Some i => [i]
                         | None => []
                         end
                     | _ => []
                     end) payloads.

(** [start], [start + 1], ... : [n] numbers. *)
Fixpoint count_from (start : Z) (n : nat) : list Z :=
  match n with
  | O => []
  | S n' => start :: count_from (start + 1) n'
  end.

(** The server answers the call: it is no request for
    [notifications/initialized]. *)
Definition answered (o : op) : bool :=
  match o with
  | Request method _ => negb (method =? "notifications/initialized")%string
  | Notify _ _ => true
  end.

(** The call is a call of [request]. *)
Definition is_request (o : op) : bool :=
  match o with
  | Request _ _ => true
  | Notify _ _ => false
  end.

(** The call returned a value. *)
Definition is_returned {A : Type} (r : call A) : bool :=
  match r with
  | Returned _ => true
  | _ => false
  end.

(** The calls [ops] made one after the other on the client [c]; each
    request is seen at the frame that its [_read] returns.  A call that
    hangs does not return, and nothing is called after it.  The result has
    one entry for each request made. *)
Fixpoint run (L : library) (c : Client.McpStdioClient) (ops : list op)
  : Client.McpStdioClient * list (call value) :=
  match ops with
  | [] => (c, [])
  | Request method params :: ops' =>
      let (c', r) := Client.exchange L c method params in
      match r with
      | Hangs => (c', [Hangs])
      | _ => let (c'', rs) := run L c' ops' in (c'', r :: rs)
      end
  | Notify method params :: ops' =>
      let (c', _) := Client.notify L c method params in
      run L c' ops'
  end.

(** ** Connection *)

(** The connection is quiet when the server waits with nothing pending and
    the client has read all that the server wrote. *)
Definition quiet (c : Client.McpStdioClient) : Prop :=
  (exists clock, Client.server c = Server.Waiting [] clock) /\ Client.stdout c = [].

(** ** The tool-calling loop *)


(** What [_openai_chat] gave is a response whose message carries no tool
    call, and [answer] is the text that [run_llm_flow] returns for it. *)
Definition final_answer (given : result value) (answer : value) : Prop :=
  exists response message tool_calls content,
    given = Ok response
    /\ Client.message_of response = Ok message
    /\ Py.get message "tool_calls" (VList []) = Ok tool_calls
    /\ Py.truthy tool_calls = false
    /\ Py.get message "content" (VStr "") = Ok content
    /\ answer = (if Py.truthy content then content else VStr "").

(** A model that asks, each time, for one call of the tool [name] with the
    arguments [arguments]. *)
Definition asks_for (name arguments : string) (w : unit) (model : string)
    (messages tools : list value) : result value * unit :=
  (Ok (VDict [("choices",
               VList [VDict [("message",
                              VDict [("role", VStr "assistant");
                                     ("content", VNone);
                                     ("tool_calls",
                                      VList [VDict [("id", VStr "call_1");
                                                    ("type", VStr "function");
                                                    ("function",
                                                     VDict [("name", VStr name);
                                                            ("arguments",
                                                             VStr arguments)])]])])]])]),
   tt).

(** ** JSON texts *)

(** What follows a number in a text is no digit. *)
Definition no_digit_ahead (rest : list byte) : Prop :=
  match rest with
  | [] => True
  | c :: _ => Bytes.digit_value c = None
  end.

(** ** Sample calls *)

(** A [tools/call] frame with the id [request_id] and the params [params]. *)
Definition call_of (request_id : value) (params : value) : value :=
  VDict [("jsonrpc", VStr "2.0"); ("id", request_id); ("method", VStr "tools/call");
         ("params", params)].

(** A session: the handshake, the list of tools, a call of a tool that is not
    registered and a call of the weather tool with no arguments. *)
Definition sample_ops : list op := [
  Request "initialize" (Some (Client.initialize_params));
  Notify "notifications/initialized" None;
  Request "tools/list" None;
  Request "tools/call" (Some (VDict [("name", VStr "foo")]));
  Request "tools/call" (Some (VDict [("name", VStr "weather")]))
].

(** * The command line of the client, the scenarios *)

(** ** [llm_client.py]: the functions around the client *)
Module llm_client.

(** [print(f"- {tool['name']}: {tool.get('description', 'No description')}")]:
    the line printed. *)
Definition tool_line (L : library) (tool : value) : result string :=
  name <- Py.item tool "name" ;;
  description <- Py.get tool "description" (VStr "No description") ;;
  Ok ("- " ++ Text.str L name ++ ": " ++ Text.str L description)%string.

(** [for tool in tools: print(...)]: the lines printed, and how the loop
    ends. *)
Fixpoint print_tools (L : library) (printed : list string) (tools : list value)
  : list string * call unit :=
  match tools with
  | [] => (printed, Returned tt)
  | tool :: tools' =>
      match tool_line L tool with
      | Ok line => print_tools L (printed ++ [line]) tools'
      | Err e => (printed, Failed e)
      end
  end.

(** [list_tools(server_cmd)], where the command starts this server: the
    lines printed, and how the call ends. *)
Definition list_tools (L : library) : list string * call unit :=
  let c0 := Client.__init__ L in
  let (c1, r1) := Client.request L c0 "initialize" (Some Client.initialize_params) in
  match r1 with
  | Returned _ =>
      let (c2, r2) := Client.notify L c1 "notifications/initialized" None in
      match r2 with
      | Returned _ =>
          let (c3, r3) := Client.request L c2 "tools/list" None in
          match r3 with
          | Returned listed =>
              match (tools <- Py.item listed "tools" ;; Py.iter tools) with
              | Ok tools => print_tools L [] tools
              | Err e => ([], Failed e)
              end
          | Failed e => ([], Failed e)
          | Hangs => ([], Hangs)
          end
      | Failed e => ([], Failed e)
      | Hangs => ([], Hangs)
      end
  | Failed e => ([], Failed e)
  | Hangs => ([], Hangs)
  end.

(** The request that [_openai_chat] builds, and the timeout that it passes
    to [urlopen]. *)
Record http_request : Type := {
  url : string;
  data : list byte;
  headers : list (string * string);
  http_method : string;
  timeout : Z
}.

(** The namespace that [parse_args] gives. *)
Record args : Type := {
  list_tools_flag : bool;
  prompt : option string;
  model : string;
  server_cmd : string
}.

(** How [main] ends: it returns, it leaves with [SystemExit], an exception
    escapes, or it never returns. *)
Inductive ending : Type :=
| Done
| SystemExit (message : string)
| Raised (e : exn)
| Hung.

(** [not v] for what [os.getenv] or [args.prompt] gave. *)
Definition missing (v : option string) : bool :=
  match v with
  | None => true
  | Some s => (s =? "")%string
  end.

Section WithWorld.

Variable L : library.

(** [os.getenv(name)] *)
Variable getenv : string -> option string.

(** The service behind the URL: [urlopen(req, timeout=60)] and
    [res.read()] give the bytes of the answer or raise, and the world
    moves on. *)
Variable World : Type.
Variable urlopen : World -> http_request -> result (list byte) * World.

Definition _openai_chat (w : World) (model : string) (messages tools : list value)
  : result value * World :=
  let api_key := getenv "OPENAI_API_KEY" in
  if missing api_key then (Err (RuntimeError "OPENAI_API_KEY is required"), w)
  else
    let payload :=
      VDict [("model", VStr model);
             ("messages", VList messages);
             ("tools", VList tools);
             ("tool_choice", VStr "auto")] in
    let req :=
      {| url := "https://api.openai.com/v1/chat/completions";
         data := dumps L payload;
         headers := [("Content-Type", "application/json");
                     ("Authorization",
                      "Bearer " ++ match api_key with Some k => k | None => "" end)%string];
         http_method := "POST";
         timeout := 60 |} in
    let (res, w') := urlopen w req in
    match res with
    | Ok body =>
        (match loads L body with
         | Some v => Ok v
         | None => Err JSONDecodeError
         end, w')
    | Err e => (Err e, w')
    end.

(** [main()] after [parse_args]: the lines printed, how it ends, and the
    world afterwards. *)
Definition main (a : args) (w : World) : list string * ending * World :=
  if list_tools_flag a then
    let (printed, r) := list_tools L in
    (printed,
     match r with
     | Returned _ => Done
     | Failed e => Raised e
     | Hangs => Hung
     end, w)
  else if missing (prompt a) then
    ([], SystemExit "Provide --prompt or use --list-tools", w)
  else if missing (getenv "OPENAI_API_KEY") then
    ([], SystemExit "OPENAI_API_KEY is required for --prompt mode", w)
  else
    let (st, r) :=
      Client.run_llm_flow L _openai_chat w
        (match prompt a with Some p => p | None => "" end) (model a) in
    match r with
    | Returned answer => ([Text.str L answer], Done, Client.world st)
    | Failed e => ([], Raised e, Client.world st)
    | Hangs => ([], Hung, Client.world st)
    end.

End WithWorld.

End llm_client.

(** ** [orchestrator.py] *)
Module orchestrator.

Section WithLibrary.

Variable L : library.

(** The runners; [clock] counts the readings of the clock, as in
    [services.diagnostics]. *)
Definition run_check_engine (clock : nat) : result (value * nat) :=
  d <- services.diagnostics L clock (VStr "P0301") ;;
  obd_code <- Py.item (fst d) "obd_code" ;;
  know <- services.knowledge obd_code ;;
  maint <- services.maintenance (VInt 42000) ;;
  Ok (VDict [
        ("scenario", VStr "check_engine");
        ("tool_calls", VList [fst d; know; maint]);
        ("summary",
         VStr "Diagnosed check-engine issue with explanation and service plan.")
      ], snd d).

Definition run_route_risk (clock : nat) : result (value * nat) :=
  let route := services.navigation (VStr "Airport") in
  let weather := services.weather (VStr "airport corridor") in
  risk_level <- Py.item weather "risk_level" ;;
  emergency <- services.emergency risk_level ;;
  Ok (VDict [
        ("scenario", VStr "route_risk");
        ("tool_calls", VList [route; weather; emergency]);
        ("summary",
         VStr "Generated route with weather-aware risk advisory and contingency guidance.")
      ], clock).

Definition run_pre_trip (clock : nat) : result (value * nat) :=
  let vehicle := services.vehicle_info (VStr "DEMO-VIN-123") in
  mileage <- Py.item vehicle "mileage" ;;
  maint <- services.maintenance mileage ;;
  d <- services.diagnostics L clock (VStr "P0101") ;;
  Ok (VDict [
        ("scenario", VStr "pre_trip");
        ("tool_calls", VList [vehicle; maint; fst d]);
        ("summary",
         VStr "Completed pre-trip readiness check using vehicle profile and diagnostics.")
      ], snd d).

Definition run_safe_drive (clock : nat) : result (value * nat) :=
  let weather := services.weather (VStr "downtown") in
  let route := services.navigation (VStr "Home") in
  risk_level <- Py.item weather "risk_level" ;;
  emergency <- services.emergency risk_level ;;
  condition <- Py.item weather "condition" ;;
  knowledge <- services.knowledge condition ;;
  Ok (VDict [
        ("scenario", VStr "safe_drive");
        ("tool_calls", VList [weather; route; emergency; knowledge]);
        ("summary",
         VStr "Produced safe-driving advice based on real-time environmental context.")
      ], clock).

(** The table [SCENARIOS], in the order of its definition. *)
Definition SCENARIOS : list (string * (nat -> result (value * nat))) := [
  ("check_engine", run_check_engine);
  ("route_risk", run_route_risk);
  ("pre_trip", run_pre_trip);
  ("safe_drive", run_safe_drive)
].

End WithLibrary.

End orchestrator.

(** * Vocabulary of the statements, continued *)

(** A response of the server to the request with the id [request_id]: the
    id is not [None], and the payload carries either a result or an error
    with one of the two codes that [main] uses. *)
Definition envelope (request_id payload : value) : Prop :=
  Py.is_none request_id = false
  /\ ((exists result, payload = Server.response request_id result)
      \/ (exists code message,
            (code = -32000 \/ code = -32601)
            /\ payload = Server.error_response request_id code message)).

(** [request.get("id")] and [request.get("method")] for a [dict]. *)
Definition id_of (request : value) : value :=
  match Py.get request "id" VNone with
  | Ok request_id => request_id
  | Err _ => VNone
  end.

Definition method_of (request : value) : value :=
  match Py.get request "method" VNone with
  | Ok method => method
  | Err _ => VNone
  end.

(** The request is one that [main] answers: it carries an id and its method
    is not [notifications/initialized]. *)
Definition expects_reply (request : value) : bool :=
  has_id request && negb (Py.eq_str (method_of request) "notifications/initialized").

Definition is_dict (v : value) : bool :=
  match v with
  | VDict _ => true
  | _ => false
  end.

(** The service behind each tool, called with [v]. *)
Definition handler (L : library) (tool : string) (clock : nat) (v : value)
  : result (value * nat) :=
  if (tool =? "diagnostics")%string then services.diagnostics L clock v
  else if (tool =? "navigation")%string then Ok (services.navigation v, clock)
  else if (tool =? "weather")%string then Ok (services.weather v, clock)
  else if (tool =? "maintenance")%string then
    r <- services.maintenance v ;; Ok (r, clock)
  else if (tool =? "emergency")%string then
    r <- services.emergency v ;; Ok (r, clock)
  else if (tool =? "knowledge")%string then
    r <- services.knowledge v ;; Ok (r, clock)
  else Ok (services.vehicle_info v, clock).



Definition is_number (v : value) : bool :=
  match v with
  | VInt _ | VBool _ => true
  | _ => false
  end.




(** The client after a call on a quiet connection: the server waits at
    [clock], the counter stands at [next_id]. *)
Definition settled (c : Client.McpStdioClient) (clock : nat) (next_id : Z)
    (payloads : list value) : Client.McpStdioClient :=
  {| Client.server := Server.Waiting [] clock; Client.stdout := [];
     Client._next_id := next_id; Client.sent := Client.sent c ++ payloads |}.

(** A tool call as the model gives it. *)
Definition tool_call (id : value) (tool text : string) : value :=
  VDict [("id", id); ("type", VStr "function");
         ("function", VDict [("name", VStr tool); ("arguments", VStr text)])].

(** The tools of [TOOLS] as [run_llm_flow] gives them to the model. *)
Definition function_tools : list value :=
  map (fun entry =>
         VDict [("type", VStr "function");
                ("function", VDict [("name", VStr (fst entry));
                                    ("description",
                                     VStr (Server.description (snd entry)));
                                    ("parameters", Server.inputSchema (snd entry))])])
      Server.TOOLS.

(** The messages that [run_llm_flow] starts with. *)
Definition opening (prompt : string) : list value :=
  [VDict [("role", VStr "system"); ("content", VStr Client.SYSTEM_PROMPT)];
   VDict [("role", VStr "user"); ("content", VStr prompt)]].

(** The result of a service: a [dict] that names its service. *)
Definition service_result (v : value) : Prop :=
  exists service, Py.get v "service" VNone = Ok (VStr service).

(** The message [m] answers the tool call [tc]: it is a tool message with
    the id of the call and the name of its function. *)
Definition answers (tc m : value) : Prop :=
  exists id function name content,
    Py.item tc "id" = Ok id
    /\ Py.item tc "function" = Ok function
    /\ Py.item function "name" = Ok name
    /\ m = VDict [("role", VStr "tool"); ("tool_call_id", id);
                  ("name", name); ("content", VStr content)].

(** Frames written at once: the handshake, a request for the tools and a
    request that the server does not know. *)
Definition sample_frames : list value := [
  Client.payload (Some 1) "initialize" (Some Client.initialize_params);
  Client.payload None "notifications/initialized" None;
  Client.payload (Some 2) "tools/list" None;
  Client.payload (Some 3) "resources/list" None
].

(** A model that answers at once with [text]. *)
Definition answers_at_once (text : string) (w : unit) (model : string)
    (messages tools : list value) : result value * unit :=
  (Ok (VDict [("choices",
               VList [VDict [("message",
                              VDict [("role", VStr "assistant");
                                     ("content", VStr text)])]])]),
   tt).

(** A service that cannot be reached, in a world that counts the
    requests. *)
Definition offline (w : nat) (req : llm_client.http_request) : result (list byte) * nat :=
  (Err (RuntimeError "offline"), S w).

Definition sample_env (name : string) : option string :=
  if (name =? "OPENAI_API_KEY")%string then Some "sk-test" else None.

Definition sample_args : llm_client.args :=
  {| llm_client.list_tools_flag := false;
     llm_client.prompt := Some "My check engine light is on";
     llm_client.model := "gpt-4o-mini";
     llm_client.server_cmd := "python3" |}.

(** A response that was left unread. *)
Definition stale_response : value := Server.response (VInt 99) (VStr "old").

(** A client with [stale_response] unread on the server's stdout. *)
Definition stale_client (L : library) : Client.McpStdioClient :=
  {| Client.server := Server.Waiting [] 0;
     Client.stdout := Server._send L stale_response;
     Client._next_id := 5;
     Client.sent := [] |}.

(** * Properties *)

(** ** Facts about bytes *)

Lemma byte_eqb_refl (c : byte) : Byte.eqb c c = true.
Proof. now apply Byte.byte_dec_lb. Qed.



Lemma digit_byte_value (d : Z) :
  0 <= d < 10 -> Bytes.digit_value (Bytes.digit_byte d) = Some d.
Proof.
  intros H.
  assert (d = 0 \/ d = 1 \/ d = 2 \/ d = 3 \/ d = 4 \/ d = 5 \/ d = 6 \/ d = 7
          \/ d = 8 \/ d = 9) as C by lia.
  repeat (destruct C as [-> | C]; [reflexivity|]). now subst.
Qed.

Lemma is_digit_facts (c : byte) :
  is_digit c ->
  Bytes.is_space c = false /\ Byte.eqb c Bytes.LF = false
  /\ c <> x2d /\ c <> x2b.
Proof.
  intros [d H]. destruct c; simpl in H; try discriminate; repeat split; discriminate.
Qed.

Lemma int_digits_all (ds : list byte) :
  Forall is_digit ds ->
  forall acc prev,
    Bytes.int_digits acc prev ds =
    match ds with
    | [] => if prev then Some acc else None
    | _ => Some (digits_value acc ds)
    end.
Proof.
  induction 1 as [|c ds [d Hd] Hds IH]; intros acc prev; [reflexivity|].
  cbn [Bytes.int_digits]. rewrite Hd, IH.
  unfold digits_value. simpl. rewrite Hd. now destruct ds.
Qed.

Lemma digits_le_digits (fuel : nat) (n : Z) :
  0 <= n -> Forall is_digit (Bytes.digits_le fuel n).
Proof.
  revert n; induction fuel as [|fuel IH]; intros n Hn; simpl; [constructor|].
  constructor.
  - exists (n mod 10). apply digit_byte_value. apply Z.mod_pos_bound. lia.
  - destruct (n <? 10); [constructor|]. apply IH. apply Z.div_pos; lia.
Qed.

Lemma fold_left_rev {A B : Type} (g : A -> B -> A) (l : list B) (acc : A) :
  fold_left g (rev l) acc = fold_right (fun c a => g a c) acc l.
Proof.
  induction l as [|x l IH]; [reflexivity|].
  simpl. now rewrite fold_left_app, IH.
Qed.

Lemma digits_le_value (fuel : nat) (n : Z) :
  0 <= n < 2 ^ Z.of_nat (S fuel) ->
  digits_value 0 (rev (Bytes.digits_le (S fuel) n)) = n.
Proof.
  unfold digits_value. rewrite fold_left_rev.
  revert n; induction fuel as [|fuel IH]; intros n Hn.
  - change (2 ^ Z.of_nat 1) with 2 in Hn.
    simpl. assert ((n <? 10) = true) as -> by (apply Z.ltb_lt; lia).
    simpl. rewrite digit_byte_value by (apply Z.mod_pos_bound; lia).
    rewrite Z.mod_small; lia.
  - remember (S fuel) as fuel1 eqn:Ef. cbn [Bytes.digits_le].
    destruct (n <? 10) eqn:E.
    + simpl. rewrite digit_byte_value by (apply Z.mod_pos_bound; lia).
      apply Z.ltb_lt in E. rewrite Z.mod_small; lia.
    + apply Z.ltb_ge in E. cbn [fold_right]. subst fuel1.
      rewrite IH.
      * rewrite digit_byte_value by (apply Z.mod_pos_bound; lia).
        pose proof (Z.div_mod n 10). lia.
      * split; [apply Z.div_pos; lia|].
        rewrite Nat2Z.inj_succ, Z.pow_succ_r in Hn by lia.
        apply Z.div_lt_upper_bound; lia.
Qed.

Lemma digits_le_nonempty (fuel : nat) (n : Z) : Bytes.digits_le (S fuel) n <> [].
Proof. discriminate. Qed.

Lemma digits_spec (n : Z) :
  0 <= n ->
  Forall is_digit (digits n) /\ digits n <> [] /\ digits_value 0 (digits n) = n.
Proof.
  intros Hn. unfold digits. repeat split.
  - apply Forall_rev. now apply digits_le_digits.
  - intros H. apply (f_equal (@rev byte)) in H. rewrite rev_involutive in H.
    discriminate.
  - apply digits_le_value. split; [assumption|].
    rewrite Nat2Z.inj_succ, Z2Nat.id by apply Z.log2_nonneg.
    destruct (Z.eq_dec n 0) as [->|Hz]; [reflexivity|].
    apply Z.log2_spec. lia.
Qed.

Lemma of_int_nonneg (n : Z) : 0 <= n -> Bytes.of_int n = digits n.
Proof.
  intros H. unfold Bytes.of_int, digits.
  now assert ((n <? 0) = false) as -> by (apply Z.ltb_ge; lia).
Qed.

Lemma of_int_neg (n : Z) : n < 0 -> Bytes.of_int n = x2d :: digits (- n).
Proof.
  intros H. unfold Bytes.of_int, digits.
  now assert ((n <? 0) = true) as -> by (apply Z.ltb_lt; lia).
Qed.

Lemma lstrip_spaces (pre l : list byte) :
  Forall (fun c => Bytes.is_space c = true) pre ->
  Bytes.lstrip (pre ++ l) = Bytes.lstrip l.
Proof.
  induction 1 as [|c pre Hc _ IH]; [reflexivity|]. simpl. now rewrite Hc.
Qed.

Lemma lstrip_clean (l : list byte) :
  match l with [] => True | c :: _ => Bytes.is_space c = false end ->
  Bytes.lstrip l = l.
Proof. destruct l as [|c l]; [reflexivity|]. intros H. simpl. now rewrite H. Qed.

Lemma strip_spec (pre l post : list byte) :
  Forall (fun c => Bytes.is_space c = true) pre ->
  Forall (fun c => Bytes.is_space c = true) post ->
  clean l ->
  Bytes.strip (pre ++ l ++ post) = l.
Proof.
  intros Hpre Hpost [Hhead Hlast]. unfold Bytes.strip, Bytes.rstrip.
  rewrite lstrip_spaces by assumption.
  destruct l as [|c l].
  - simpl. rewrite <- (app_nil_r post). rewrite (@lstrip_spaces post [] Hpost). reflexivity.
  - rewrite <- app_comm_cons, (@lstrip_clean (c :: l ++ post) Hhead).
    rewrite app_comm_cons, rev_app_distr.
    rewrite (@lstrip_spaces (rev post) (rev (c :: l))) by now apply Forall_rev.
    rewrite (@lstrip_clean (rev (c :: l)) Hlast). apply rev_involutive.
Qed.

Lemma strip_clean (l : list byte) : clean l -> Bytes.strip l = l.
Proof.
  intros H. rewrite <- (app_nil_r l) at 1.
  apply (strip_spec [] l []); auto.
Qed.

Lemma clean_digits (ds : list byte) : Forall is_digit ds -> clean ds.
Proof.
  intros H. split.
  - destruct ds as [|c ds]; [exact I|]. apply is_digit_facts. now inversion H.
  - apply Forall_rev in H. destruct (rev ds) as [|c r]; [exact I|].
    apply is_digit_facts. now inversion H.
Qed.

Lemma clean_signed (sign : byte) (ds : list byte) :
  Bytes.is_space sign = false -> Forall is_digit ds -> clean (sign :: ds).
Proof.
  intros Hs H. split; [assumption|].
  simpl. destruct (clean_digits ds H) as [_ Hl].
  destruct (rev ds) as [|c r]; simpl; assumption.
Qed.

(** [int] on a decimal numeral, signed or not, with white space around. *)
Lemma int_digits_value (ds : list byte) :
  Forall is_digit ds -> ds <> [] ->
  Bytes.int_digits 0 false ds = Some (digits_value 0 ds).
Proof.
  intros H Hne. rewrite int_digits_all by assumption. now destruct ds.
Qed.

Lemma int_unsigned (pre ds post : list byte) :
  Forall (fun c => Bytes.is_space c = true) pre ->
  Forall (fun c => Bytes.is_space c = true) post ->
  Forall is_digit ds -> ds <> [] ->
  Bytes.int (Bytes.strip (pre ++ ds ++ post)) = Some (digits_value 0 ds).
Proof.
  intros Hpre Hpost Hds Hne.
  rewrite strip_spec by auto using clean_digits.
  unfold Bytes.int. rewrite strip_clean by auto using clean_digits.
  rewrite <- int_digits_value by assumption.
  destruct ds as [|c ds]; [easy|].
  assert (is_digit c) as Hc by now inversion Hds.
  destruct Hc as [d Hd]. destruct c; try discriminate Hd; reflexivity.
Qed.

Lemma int_negative (pre ds post : list byte) :
  Forall (fun c => Bytes.is_space c = true) pre ->
  Forall (fun c => Bytes.is_space c = true) post ->
  Forall is_digit ds -> ds <> [] ->
  Bytes.int (Bytes.strip (pre ++ (x2d :: ds) ++ post)) = Some (- digits_value 0 ds).
Proof.
  intros Hpre Hpost Hds Hne.
  rewrite strip_spec by auto using clean_signed.
  unfold Bytes.int. rewrite strip_clean by auto using clean_signed.
  now rewrite int_digits_value by assumption.
Qed.

(** [int] reads back what [str] writes, also inside a header line. *)
Lemma int_of_int (pre post : list byte) (n : Z) :
  Forall (fun c => Bytes.is_space c = true) pre ->
  Forall (fun c => Bytes.is_space c = true) post ->
  Bytes.int (Bytes.strip (pre ++ Bytes.of_int n ++ post)) = Some n.
Proof.
  intros Hpre Hpost. destruct (Z_lt_le_dec n 0) as [Hn|Hn].
  - rewrite of_int_neg by assumption.
    destruct (digits_spec (- n)) as (Hd & Hne & Hv); [lia|].
    rewrite int_negative, Hv by assumption. f_equal. lia.
  - rewrite of_int_nonneg by assumption.
    destruct (digits_spec n) as (Hd & Hne & Hv); [lia|].
    now rewrite int_unsigned, Hv.
Qed.

Lemma of_int_no_LF (n : Z) :
  Forall (fun c => Byte.eqb c Bytes.LF = false) (Bytes.of_int n).
Proof.
  assert (forall m, 0 <= m -> Forall (fun c => Byte.eqb c Bytes.LF = false) (digits m)) as H.
  { intros m Hm. destruct (digits_spec m) as (Hd & _); [assumption|].
    eapply Forall_impl; [|exact Hd]. intros c Hc. now apply is_digit_facts. }
  destruct (Z_lt_le_dec n 0) as [Hn|Hn].
  - rewrite of_int_neg by assumption. constructor; [reflexivity|]. apply H. lia.
  - rewrite of_int_nonneg by assumption. now apply H.
Qed.

Lemma of_int_nonempty (n : Z) : Bytes.of_int n <> [].
Proof.
  destruct (Z_lt_le_dec n 0) as [Hn|Hn].
  - now rewrite of_int_neg.
  - rewrite of_int_nonneg by assumption. now apply digits_spec.
Qed.

(** ** Reading lines *)

Lemma split_line_complete (l rest : list byte) :
  no_LF l ->
  Py.split_line (l ++ Bytes.LF :: rest) = Some (l ++ [Bytes.LF], rest).
Proof.
  induction 1 as [|c l Hc _ IH]; [reflexivity|].
  simpl. rewrite Hc. simpl in IH. now rewrite IH.
Qed.

Lemma split_line_none (l : list byte) : no_LF l -> Py.split_line l = None.
Proof.
  induction 1 as [|c l Hc _ IH]; [reflexivity|]. simpl. now rewrite Hc, IH.
Qed.

Lemma split_line_length (l line rest : list byte) :
  Py.split_line l = Some (line, rest) ->
  l = line ++ rest /\ line <> [].
Proof.
  revert line rest; induction l as [|c l IH]; intros line rest; simpl; [discriminate|].
  destruct (Byte.eqb c Bytes.LF).
  - intros H. injection H as <- <-. now split.
  - destruct (Py.split_line l) as [[line' rest']|]; [|discriminate].
    intros H. injection H as <- <-. destruct (IH _ _ eq_refl) as [-> _]. now split.
Qed.

Lemma readline_complete (line rest : list byte) (closed : bool) :
  complete_line line ->
  Py.readline (Stream (line ++ rest) closed) = Return line rest.
Proof.
  intros (l & -> & Hl). unfold Py.readline. simpl buf.
  rewrite <- app_assoc. simpl. now rewrite split_line_complete.
Qed.


Lemma readline_shorter (s : stream) (line rest : list byte) :
  Py.readline s = Return line rest ->
  line <> [] -> (List.length rest < List.length (buf s))%nat.
Proof.
  unfold Py.readline. destruct (Py.split_line (buf s)) as [[line' rest']|] eqn:E.
  - intros H Hne. injection H as <- <-. apply split_line_length in E as [-> Hl].
    rewrite length_app. destruct line'; [easy|simpl; lia].
  - destruct (closed s); [|discriminate]. intros H Hne. injection H as <- <-.
    destruct (buf s); [easy|simpl; lia].
Qed.

Lemma read_exact (body rest : list byte) (closed : bool) :
  Py.read (Z.of_nat (List.length body)) (Stream (body ++ rest) closed) = Return body rest.
Proof.
  unfold Py.read. simpl buf.
  assert ((Z.of_nat (List.length body) <? -1) = false) as -> by (apply Z.ltb_ge; lia).
  assert ((Z.of_nat (List.length body) <? 0) = false) as -> by (apply Z.ltb_ge; lia).
  rewrite Nat2Z.id.
  assert ((List.length body <=? List.length (body ++ rest))%nat = true) as ->.
  { apply Nat.leb_le. rewrite length_app. lia. }
  rewrite firstn_app, Nat.sub_diag, firstn_all. simpl. rewrite app_nil_r.
  rewrite skipn_app, Nat.sub_diag, skipn_all. reflexivity.
Qed.

(** ** The header loop *)

(** One turn of the loop on a stream that starts with a complete line. *)
Lemma header_loop_line (fuel : nat) (closed : bool) (line rest : list byte)
    (content_length : option Z) :
  complete_line line ->
  Frame.header_loop (S fuel) closed (line ++ rest) content_length =
  if Bytes.eqb line Bytes.CRLF then Return (Some content_length) rest
  else if Bytes.startswith (Bytes.lower line) (Bytes.lit "content-length:")
       then match Bytes.split_colon line with
            | Some (_, after) =>
                match Bytes.int (Bytes.strip after) with
                | Some n => Frame.header_loop fuel closed rest (Some n)
                | None => Raise (ValueError (Bytes.int_error (Bytes.strip after))) rest
                end
            | None => Raise (IndexError "list index out of range") rest
            end
       else Frame.header_loop fuel closed rest content_length.
Proof.
  intros H. cbn [Frame.header_loop]. rewrite readline_complete by assumption.
  destruct H as (l & -> & _). now destruct l.
Qed.

(** The empty line ends the loop. *)
Lemma header_loop_blank (fuel : nat) (closed : bool) (rest : list byte)
    (content_length : option Z) :
  Frame.header_loop (S fuel) closed (Bytes.CRLF ++ rest) content_length =
  Return (Some content_length) rest.
Proof.
  rewrite header_loop_line; [reflexivity|].
  exists [Bytes.CR]. split; [reflexivity|]. now repeat constructor.
Qed.

Lemma content_length_line_complete (n : Z) : complete_line (content_length_line n).
Proof.
  exists (Bytes.lit "Content-Length: " ++ Bytes.of_int n ++ [Bytes.CR]). split.
  - unfold content_length_line, Bytes.CRLF. now rewrite <- !app_assoc.
  - apply Forall_app. split; [now repeat constructor|].
    apply Forall_app. split; [apply of_int_no_LF | now repeat constructor].
Qed.

Lemma header_loop_content_length (fuel : nat) (closed : bool) (n : Z)
    (rest : list byte) (content_length : option Z) :
  Frame.header_loop (S fuel) closed (content_length_line n ++ rest) content_length =
  Frame.header_loop fuel closed rest (Some n).
Proof.
  rewrite header_loop_line by apply content_length_line_complete.
  unfold content_length_line.
  change (Bytes.lit "Content-Length: ")
    with (Bytes.lit "Content-Length" ++ x3a :: [x20]).
  replace (Bytes.eqb _ Bytes.CRLF) with false by reflexivity.
  replace (Bytes.startswith _ _) with true by reflexivity.
  replace (Bytes.split_colon _)
    with (Some (Bytes.lit "Content-Length", [x20] ++ Bytes.of_int n ++ Bytes.CRLF))
    by reflexivity.
  rewrite int_of_int; [reflexivity | now repeat constructor | now repeat constructor].
Qed.

(** The header of a frame leaves the body at the front of the stream. *)
Lemma headers_header (n : Z) (rest : list byte) (eof : bool) :
  Frame.headers (Stream (Frame.header n ++ rest) eof) = Return (Some (Some n)) rest.
Proof.
  unfold Frame.headers, Frame.header. cbn [buf closed].
  replace ((Bytes.lit "Content-Length: " ++ Bytes.of_int n ++ Bytes.CRLF ++ Bytes.CRLF)
           ++ rest)
    with (content_length_line n ++ Bytes.CRLF ++ rest)
    by (unfold content_length_line; now rewrite <- !app_assoc).
  rewrite header_loop_content_length.
  destruct (List.length _) eqn:E.
  - unfold content_length_line in E. discriminate E.
  - apply header_loop_blank.
Qed.

(** More fuel than bytes is enough fuel. *)
Lemma header_loop_fuel (fuel1 fuel2 : nat) (closed : bool) (buf : list byte)
    (content_length : option Z) :
  (List.length buf < fuel1)%nat -> (List.length buf < fuel2)%nat ->
  Frame.header_loop fuel1 closed buf content_length =
  Frame.header_loop fuel2 closed buf content_length.
Proof.
  revert fuel2 buf content_length.
  induction fuel1 as [|fuel1 IH]; intros [|fuel2] buf cl H1 H2; try lia.
  cbn [Frame.header_loop].
  destruct (Py.readline (Stream buf closed)) as [line rest| |] eqn:E; try reflexivity.
  destruct line as [|c line]; [reflexivity|].
  apply readline_shorter in E; [|discriminate]. simpl in E.
  cbn [Frame.is_empty].
  destruct (Bytes.eqb _ _); [reflexivity|].
  destruct (Bytes.startswith _ _).
  - destruct (Bytes.split_colon _) as [[? after]|]; [|reflexivity].
    destruct (Bytes.int _); [|reflexivity]. apply IH; lia.
  - apply IH; lia.
Qed.

Lemma headers_unfold (fuel : nat) (s : stream) :
  (List.length (buf s) < fuel)%nat ->
  Frame.headers s = Frame.header_loop fuel (closed s) (buf s) None.
Proof. intros H. unfold Frame.headers. apply header_loop_fuel; lia. Qed.

(** ** Round trip of a frame (C1) *)

Section RoundTrip.

Variable L : library.

Lemma server_read_frame (body rest : list byte) (eof : bool) :
  body <> [] ->
  Server._read_message L (Stream (Frame.frame body ++ rest) eof) =
  match loads L body with
  | Some v => Return v rest
  | None => Raise JSONDecodeError rest
  end.
Proof.
  intros Hne. unfold Server._read_message, Frame.frame.
  rewrite <- app_assoc, headers_header. cbn [closed].
  rewrite read_exact. now destruct body.
Qed.

Lemma client_read_frame (body rest : list byte) (eof : bool) :
  Client._read L (Stream (Frame.frame body ++ rest) eof) =
  match loads L body with
  | Some v => Return v rest
  | None => Raise JSONDecodeError rest
  end.
Proof.
  unfold Client._read, Frame.frame.
  rewrite <- app_assoc, headers_header. cbn [closed].
  now rewrite read_exact.
Qed.

(** C1.  A message written as a frame and read back from the stream is the
    message: the server's [_read_message] gives back what the client's
    [_send] writes, and the client's [_read] what the server's [_send]
    writes, and each leaves the rest of the stream unread.  The message is
    any value that the JSON codec itself carries faithfully. *)
Theorem frame_round_trip (m : value) (rest : list byte) (eof : bool) :
  loads L (dumps L m) = Some m ->
  loads L [] = None ->
  Server._read_message L (Stream (Frame.frame (dumps L m) ++ rest) eof) = Return m rest
  /\ Client._read L (Stream (Server._send L m ++ rest) eof) = Return m rest.
Proof.
  intros Hm Hempty. split.
  - rewrite server_read_frame, Hm; [reflexivity|]. intros E. congruence.
  - unfold Server._send. now rewrite client_read_frame, Hm.
Qed.

End RoundTrip.

Lemma frame_round_trip_witness :
  Server._read_message Json.lib
    (Stream (Frame.frame (dumps Json.lib sample_request) ++ [x58]) false)
  = Return sample_request [x58]
  /\ Client._read Json.lib (Stream (Server._send Json.lib sample_request ++ [x58]) false)
    = Return sample_request [x58].
Proof. apply frame_round_trip; reflexivity. Defined.

(** ** Streams of header lines *)









(** ** The loop of [main] *)

Lemma header_loop_shorter (fuel : nat) (eof : bool) :
  forall buf content_length cl rest,
    Frame.header_loop fuel eof buf content_length = Return (Some cl) rest ->
    (List.length rest < List.length buf)%nat.
Proof.
  induction fuel as [|fuel IH]; intros buf cl0 cl rest; [discriminate|].
  cbn [Frame.header_loop].
  destruct (Py.readline (Stream buf eof)) as [line rest1| |] eqn:E; try discriminate.
  destruct line as [|c line]; [discriminate|].
  apply readline_shorter in E; [|discriminate]. simpl in E.
  cbn [Frame.is_empty].
  destruct (Bytes.eqb _ _).
  { intros H. injection H as _ <-. exact E. }
  destruct (Bytes.startswith _ _).
  - destruct (Bytes.split_colon _) as [[? after]|]; [|discriminate].
    destruct (Bytes.int _); [|discriminate].
    intros H. apply IH in H. lia.
  - intros H. apply IH in H. lia.
Qed.

Lemma read_not_longer (n : Z) (s : stream) (body rest : list byte) :
  Py.read n s = Return body rest -> (List.length rest <= List.length (buf s))%nat.
Proof.
  unfold Py.read.
  destruct (n <? -1); [discriminate|].
  destruct (n <? 0).
  - destruct (closed s); [|discriminate]. intros H. injection H as _ <-. simpl. lia.
  - destruct (Z.to_nat n <=? List.length (buf s))%nat.
    + intros H. injection H as _ <-. rewrite length_skipn. lia.
    + destruct (closed s); [|discriminate]. intros H. injection H as _ <-. simpl. lia.
Qed.

Section ServerLoop.

Variable L : library.

Lemma read_message_shorter (s : stream) (v : value) (rest : list byte) :
  Server._read_message L s = Return v rest ->
  Py.is_none v = false ->
  (List.length rest < List.length (buf s))%nat.
Proof.
  unfold Server._read_message, Frame.headers.
  destruct (Frame.header_loop _ _ _ _) as [[[n|]|] rest1| |] eqn:E; try discriminate.
  - apply header_loop_shorter in E.
    destruct (Py.read n _) as [body rest2| |] eqn:R; try discriminate.
    apply read_not_longer in R. simpl in R.
    destruct (Frame.is_empty body).
    + intros H. now injection H as <- <-.
    + destruct (loads L body); [|discriminate].
      intros H _. injection H as _ <-. lia.
  - intros H. now injection H as <- <-.
  - intros H. now injection H as <- <-.
Qed.

Lemma main_loop_fuel (fuel1 fuel2 : nat) (s : stream) (clock : nat) :
  (List.length (buf s) < fuel1)%nat -> (List.length (buf s) < fuel2)%nat ->
  Server.main_loop L fuel1 s clock = Server.main_loop L fuel2 s clock.
Proof.
  revert fuel2 s clock.
  induction fuel1 as [|fuel1 IH]; intros [|fuel2] s clock H1 H2; try lia.
  cbn [Server.main_loop].
  destruct (Server._read_message L s) as [request rest| |] eqn:E; try reflexivity.
  destruct (Py.is_none request) eqn:N; [reflexivity|].
  apply read_message_shorter in E; [|assumption].
  destruct (Server.main_body L clock request) as [[out clock']|]; [|reflexivity].
  rewrite (IH fuel2); [reflexivity | simpl; lia | simpl; lia].
Qed.

(** [main] is its loop: one turn, then [main] on what is left. *)
Lemma main_unfold (s : stream) (clock : nat) :
  Server.main L s clock =
  match Server._read_message L s with
  | Return request rest =>
      if Py.is_none request then ([], Server.Exited)
      else match Server.main_body L clock request with
           | Ok (out, clock') =>
               let (out', st) := Server.main L (Stream rest (closed s)) clock' in
               (out ++ out', st)
           | Err e => ([], Server.Crashed e)
           end
  | Raise e _ => ([], Server.Crashed e)
  | Block => ([], Server.Waiting (buf s) clock)
  end.
Proof.
  unfold Server.main at 1. cbn [Server.main_loop].
  destruct (Server._read_message L s) as [request rest| |] eqn:E; try reflexivity.
  destruct (Py.is_none request) eqn:N; [reflexivity|].
  apply read_message_shorter in E; [|assumption].
  destruct (Server.main_body L clock request) as [[out clock']|]; [|reflexivity].
  unfold Server.main. rewrite (main_loop_fuel (List.length (buf s)) (S (List.length rest)));
    [reflexivity | simpl; lia | simpl; lia].
Qed.


(** [main] on a stream that starts with the frame of a request: the turn
    for this request, then [main] on the rest. *)
Lemma main_frame (request : value) (rest : list byte) (eof : bool) (clock : nat) :
  loads L (dumps L request) = Some request ->
  loads L [] = None ->
  Py.is_none request = false ->
  Server.main L (Stream (Frame.frame (dumps L request) ++ rest) eof) clock =
  match Server.main_body L clock request with
  | Ok (out, clock') =>
      let (out', st) := Server.main L (Stream rest eof) clock' in (out ++ out', st)
  | Err e => ([], Server.Crashed e)
  end.
Proof.
  intros Hr He Hn. rewrite main_unfold, server_read_frame, Hr, Hn; [reflexivity|].
  intros E. congruence.
Qed.

(** With nothing to read on an open pipe, [main] waits. *)
Lemma main_waits (clock : nat) :
  Server.main L (Stream [] false) clock = ([], Server.Waiting [] clock).
Proof. reflexivity. Qed.

End ServerLoop.

(** ** Frames without a length, streams that end in the header (C3, C10) *)










Section BadFrames.

Variable L : library.




End BadFrames.







(** ** The dispatch of [main] (C4, C5, C8, C9) *)

Section Dispatch.

Variable L : library.

Lemma tool_call_unregistered (clock : nat) (name arguments : value) :
  registered name = false ->
  Server._tool_call L clock name arguments
  = Err (ValueError ("Unknown tool: " ++ Text.str L name)).
Proof.
  unfold registered. simpl. intros H.
  repeat (apply orb_false_elim in H; destruct H as [?E H]).
  unfold Server._tool_call. now rewrite E, E0, E1, E2, E3, E4, E5.
Qed.

Lemma get_ok_dict (d : value) (k : string) (default v : value) :
  Py.get d k default = Ok v -> exists items, d = VDict items.
Proof. destruct d; try discriminate. eauto. Qed.

(** Inside the [try], a failure of any kind becomes the error response. *)
Lemma main_body_tools_call (clock : nat) (request request_id params : value) :
  Py.get request "method" VNone = Ok (VStr "tools/call") ->
  Py.get request "id" VNone = Ok request_id ->
  Py.get request "params" (VDict []) = Ok params ->
  Server.main_body L clock request =
  match Server.try_tool_call L clock params with
  | Ok (result, clock') =>
      Ok (Server.reply L request_id (Server.response request_id result), clock')
  | Err exc =>
      Ok (Server.reply L request_id
            (Server.error_response request_id (-32000) (Py.str_exc exc)), clock)
  end.
Proof.
  intros Hm Hi Hp. unfold Server.main_body. rewrite Hm, Hi. simpl. now rewrite Hp.
Qed.

Lemma frame_nonempty (body : list byte) : Frame.frame body <> [].
Proof. unfold Frame.frame, Frame.header. simpl. discriminate. Qed.

(** C4.  A [tools/call] request with an id whose [params] name no registered
    tool gets one frame written to stdout, from which the client reads the
    error response with the id of the request, the code -32000 and the
    message [Unknown tool: <name>]; whatever is raised inside the [try] gets
    such a response with the code -32000 and the text of the exception; in
    both cases [main] goes on with the next frame. *)
Theorem tools_call_failure_is_error_response
    (clock : nat) (request request_id params : value) (rest : list byte) (eof : bool) :
  Py.get request "method" VNone = Ok (VStr "tools/call") ->
  Py.get request "id" VNone = Ok request_id ->
  Py.is_none request_id = false ->
  Py.get request "params" (VDict []) = Ok params ->
  codec L ->
  let error message :=
    VDict [("jsonrpc", VStr "2.0"); ("id", request_id);
           ("error", VDict [("code", VInt (-32000)); ("message", VStr message)])] in
  let sent message := Frame.frame (dumps L (error message)) in
  (forall message more,
     sent message <> []
     /\ Client._read L (Stream (sent message ++ more) false) = Return (error message) more)
  /\ (forall name,
        Py.get params "name" (VStr "") = Ok name -> registered name = false ->
        let message := ("Unknown tool: " ++ Text.str L name)%string in
        Server.main_body L clock request = Ok (sent message, clock)
        /\ Server.main L (Stream (Frame.frame (dumps L request) ++ rest) eof) clock
           = (sent message ++ fst (Server.main L (Stream rest eof) clock),
              snd (Server.main L (Stream rest eof) clock)))
  /\ (forall exc,
        Server.try_tool_call L clock params = Err exc ->
        Server.main_body L clock request = Ok (sent (Py.str_exc exc), clock)
        /\ Server.main L (Stream (Frame.frame (dumps L request) ++ rest) eof) clock
           = (sent (Py.str_exc exc) ++ fst (Server.main L (Stream rest eof) clock),
              snd (Server.main L (Stream rest eof) clock))).
Proof.
  intros Hm Hi Hn Hp [Hcodec Hempty] error sent.
  assert (Py.is_none request = false) as Hreq.
  { destruct (get_ok_dict _ _ _ _ Hm) as [items ->]. reflexivity. }
  assert (forall exc,
            Server.try_tool_call L clock params = Err exc ->
            Server.main_body L clock request = Ok (sent (Py.str_exc exc), clock)
            /\ Server.main L (Stream (Frame.frame (dumps L request) ++ rest) eof) clock
               = (sent (Py.str_exc exc) ++ fst (Server.main L (Stream rest eof) clock),
                  snd (Server.main L (Stream rest eof) clock))) as Hexc.
  { intros exc Hexc.
    assert (Server.main_body L clock request = Ok (sent (Py.str_exc exc), clock)) as Hbody.
    { rewrite (main_body_tools_call clock request request_id params Hm Hi Hp), Hexc.
      unfold Server.reply. now rewrite Hn. }
    split; [assumption|].
    rewrite main_frame, Hbody; [| apply Hcodec | exact Hempty | exact Hreq].
    now destruct (Server.main L (Stream rest eof) clock). }
  split; [|split; [|assumption]].
  - intros message more. split; [apply frame_nonempty|].
    unfold sent. now rewrite client_read_frame, Hcodec.
  - intros name Hname Hreg message.
    change message with (Py.str_exc (ValueError ("Unknown tool: " ++ Text.str L name))).
    apply Hexc. unfold Server.try_tool_call. rewrite Hname.
    destruct (get_ok_dict _ _ _ _ Hname) as [items ->].
    simpl. destruct (Py.lookup "arguments" items); simpl;
      now apply tool_call_unregistered.
Qed.

(** Without an id, nothing is written. *)
Lemma main_body_without_id (clock : nat) (request : value) :
  has_id request = false ->
  match Server.main_body L clock request with
  | Ok (out, _) => out = []
  | Err _ => True
  end.
Proof.
  unfold has_id, Server.main_body.
  destruct (Py.get request "method" VNone) as [method|]; [|easy]. simpl.
  destruct (Py.get request "id" VNone) as [request_id|] eqn:Hi; [|easy]. simpl.
  intros Hn. apply negb_false_iff in Hn.
  unfold Server.reply. rewrite Hn.
  destruct (Py.eq_str method "initialize"); [reflexivity|].
  destruct (Py.eq_str method "notifications/initialized"); [reflexivity|].
  destruct (Py.eq_str method "tools/list"); [reflexivity|].
  destruct (Py.eq_str method "tools/call"); [|reflexivity].
  destruct (get_ok_dict _ _ _ _ Hi) as [items ->]. simpl.
  destruct (Py.lookup "params" items) as [params|]; simpl; [|reflexivity].
  now destruct (Server.try_tool_call L clock params) as [[? ?]|].
Qed.

(** C5.  A frame with an id and a method that is none of the four gets one
    frame written to stdout, from which the client reads the error response
    with the id of the request, the code -32601 and the message
    [Method not found: <method>]; for a frame without an id, nothing is
    written. *)
Theorem unknown_method_and_missing_id
    (clock : nat) (request : value) :
  (forall method request_id,
     Py.get request "method" VNone = Ok method ->
     known_method method = false ->
     Py.get request "id" VNone = Ok request_id ->
     Py.is_none request_id = false ->
     let error :=
       VDict [("jsonrpc", VStr "2.0"); ("id", request_id);
              ("error", VDict [("code", VInt (-32601));
                               ("message",
                                VStr ("Method not found: " ++ Text.str L method))])] in
     let sent := Frame.frame (dumps L error) in
     Server.main_body L clock request = Ok (sent, clock)
     /\ sent <> []
     /\ (codec L ->
         forall more, Client._read L (Stream (sent ++ more) false) = Return error more))
  /\ (has_id request = false ->
      match Server.main_body L clock request with
      | Ok (out, _) => out = []
      | Err _ => True
      end).
Proof.
  split; [|apply main_body_without_id].
  intros method request_id Hm Hk Hi Hn error sent. split; [|split].
  - unfold known_method in Hk.
    repeat (apply orb_false_elim in Hk; destruct Hk as [Hk ?E]).
    unfold Server.main_body. rewrite Hm, Hi. simpl.
    rewrite Hk, E1, E0, E. unfold Server.reply. now rewrite Hn.
  - apply frame_nonempty.
  - intros [Hcodec _] more. unfold sent. now rewrite client_read_frame, Hcodec.
Qed.

(** C8.  A [tools/call] request that names a registered tool and whose
    [params] have no [arguments], or [None] for them, calls the handler with
    the empty [dict]: the result is that of the tool's service with the
    default value of its parameter, and the call does not fail. *)
Theorem missing_arguments_use_defaults
    (clock : nat) (request request_id : value) (tool : string)
    (items : list (string * value)) :
  Py.get request "method" VNone = Ok (VStr "tools/call") ->
  Py.get request "id" VNone = Ok request_id ->
  Py.get request "params" (VDict []) = Ok (VDict items) ->
  Py.lookup "name" items = Some (VStr tool) ->
  In tool (map fst Server.TOOLS) ->
  Py.lookup "arguments" items = None \/ Py.lookup "arguments" items = Some VNone ->
  exists result clock',
    handler_default L tool clock = Ok (result, clock')
    /\ Server.try_tool_call L clock (VDict items)
       = Server._tool_call L clock (VStr tool) (VDict [])
    /\ Server._tool_call L clock (VStr tool) (VDict [])
       = Ok (Server.tool_result L result, clock')
    /\ Server.main_body L clock request
       = Ok (Server.reply L request_id
               (Server.response request_id (Server.tool_result L result)), clock').
Proof.
  intros Hm Hi Hp Hname Hin Harg.
  assert (Server.try_tool_call L clock (VDict items)
          = Server._tool_call L clock (VStr tool) (VDict [])) as Htry.
  { unfold Server.try_tool_call. simpl. rewrite Hname. simpl.
    now destruct Harg as [-> | ->]. }
  assert (exists result clock',
            handler_default L tool clock = Ok (result, clock')
            /\ Server._tool_call L clock (VStr tool) (VDict [])
               = Ok (Server.tool_result L result, clock')) as (result & clock' & Hd & Hc).
  { simpl in Hin.
    repeat (destruct Hin as [<- | Hin]; [eexists; eexists; split; reflexivity|]).
    contradiction. }
  exists result, clock'. repeat split; try assumption.
  rewrite (main_body_tools_call clock request request_id (VDict items) Hm Hi Hp).
  now rewrite Htry, Hc.
Qed.

(** C9.  The maintenance tool called with a mileage of 45000 in a request
    with an id: one frame is written to stdout, from which the client
    reads the response with the id of the request; the text of its result
    is the JSON text of the result of the service and decodes to it: a
    [dict] with a non-empty list of overdue items and a recommended window
    of 7 days. *)
Theorem maintenance_45000 (clock : nat) (request_id : value) :
  Py.is_none request_id = false ->
  codec L ->
  let arguments := VDict [("current_mileage", VInt 45000)] in
  let request :=
    VDict [("jsonrpc", VStr "2.0"); ("id", request_id); ("method", VStr "tools/call");
           ("params", VDict [("name", VStr "maintenance"); ("arguments", arguments)])] in
  let result :=
    VDict [("service", VStr "Maintenance"); ("mileage", VInt 45000);
           ("overdue_items", VList [VStr "brake fluid"; VStr "air filter"]);
           ("recommended_window_days", VInt 7)] in
  let text := VStr (string_of_list_byte (dumps L result)) in
  let returned :=
    VDict [("content", VList [VDict [("type", VStr "text"); ("text", text)]]);
           ("isError", VBool false)] in
  let response :=
    VDict [("jsonrpc", VStr "2.0"); ("id", request_id); ("result", returned)] in
  services.maintenance (VInt 45000) = Ok result
  /\ Server._tool_call L clock (VStr "maintenance") arguments = Ok (returned, clock)
  /\ Server.main_body L clock request = Ok (Frame.frame (dumps L response), clock)
  /\ (forall more,
        Client._read L (Stream (Frame.frame (dumps L response) ++ more) false)
        = Return response more)
  /\ Client.json_loads L text = Ok result
  /\ (exists overdue,
        Py.get result "overdue_items" VNone = Ok (VList overdue) /\ overdue <> [])
  /\ Py.get result "recommended_window_days" VNone = Ok (VInt 7).
Proof.
  intros Hn [Hcodec _] arguments request result text returned response.
  split; [reflexivity|]. split; [reflexivity|]. split; [|split; [|split; [|split]]].
  - unfold Server.main_body, request. simpl. unfold Server.reply. now rewrite Hn.
  - intros more. now rewrite client_read_frame, Hcodec.
  - unfold text, Client.json_loads.
    now rewrite list_byte_of_string_of_list_byte, Hcodec.
  - exists [VStr "brake fluid"; VStr "air filter"]. split; [reflexivity | discriminate].
  - reflexivity.
Qed.

End Dispatch.

(** ** The client endpoint (C7, C2) *)

Section Endpoint.

Variable L : library.

(** *** The counter *)

Lemma send_next_id (c : Client.McpStdioClient) (p : value) :
  Client._next_id (fst (Client._send L c p)) = Client._next_id c
  /\ Client.sent (fst (Client._send L c p)) = Client.sent c ++ [p].
Proof.
  unfold Client._send. destruct (Client.server c); try (now split).
  now destruct (Server.main L _ _).
Qed.

Lemma exchange_next_id (c : Client.McpStdioClient) (method : string)
    (params : option value) :
  let c' := fst (Client.exchange L c method params) in
  Client._next_id c' = Client._next_id c + 1
  /\ Client.sent c'
     = Client.sent c ++ [Client.payload (Some (Client._next_id c)) method params].
Proof.
  unfold Client.exchange.
  pose proof (send_next_id (Client.with_next_id c (Client._next_id c + 1))
                (Client.payload (Some (Client._next_id c)) method params)) as H.
  destruct (Client._send L _ _) as [c1 w]. simpl in H.
  destruct w; [|exact H].
  now destruct (Client._read L _).
Qed.

Lemma request_is_exchange (c : Client.McpStdioClient) (method : string)
    (params : option value) :
  fst (Client.request L c method params) = fst (Client.exchange L c method params).
Proof.
  unfold Client.request. destruct (Client.exchange L c method params) as [c' r].
  destruct r as [response| |]; [|reflexivity|reflexivity].
  now destruct (Client.unwrap L response).
Qed.

Lemma notify_next_id (c : Client.McpStdioClient) (method : string)
    (params : option value) :
  let c' := fst (Client.notify L c method params) in
  Client._next_id c' = Client._next_id c
  /\ Client.sent c' = Client.sent c ++ [Client.payload None method params].
Proof.
  unfold Client.notify.
  pose proof (send_next_id c (Client.payload None method params)) as H.
  destruct (Client._send L _ _) as [c1 w]. simpl in H. now destruct w.
Qed.

Lemma ids_app (a b : list value) : ids (a ++ b) = ids a ++ ids b.
Proof. apply flat_map_app. Qed.

Lemma ids_request (i : Z) (method : string) (params : option value) :
  ids [Client.payload (Some i) method params] = [VInt i].
Proof. reflexivity. Qed.

Lemma ids_notification (method : string) (params : option value) :
  ids [Client.payload None method params] = [].
Proof. now destruct params. Qed.

Lemma run_counter (ops : list op) :
  forall c,
    let (c', rs) := run L c ops in
    Client._next_id c' = Client._next_id c + Z.of_nat (List.length rs)
    /\ ids (Client.sent c')
       = ids (Client.sent c) ++ map VInt (count_from (Client._next_id c) (List.length rs)).
Proof.
  induction ops as [|[method params | method params] ops IH]; intros c.
  - simpl. split; [lia | now rewrite app_nil_r].
  - cbn [run].
    destruct (exchange_next_id c method params) as [Hn Hs].
    destruct (Client.exchange L c method params) as [c1 r]. simpl in Hn, Hs.
    assert (Client._next_id c1 = Client._next_id c + Z.of_nat 1
            /\ ids (Client.sent c1)
               = ids (Client.sent c) ++ map VInt (count_from (Client._next_id c) 1))
      as Hone.
    { split; [lia|]. now rewrite Hs, ids_app, ids_request. }
    specialize (IH c1). destruct (run L c1 ops) as [c2 rs].
    destruct IH as [IHn IHs].
    assert (Client._next_id c2 = Client._next_id c + Z.of_nat (S (List.length rs))
            /\ ids (Client.sent c2)
               = ids (Client.sent c)
                 ++ map VInt (count_from (Client._next_id c) (S (List.length rs))))
      as Hmore.
    { split; [lia|]. rewrite IHs, Hs, ids_app, ids_request, Hn, <- app_assoc.
      reflexivity. }
    destruct r; [exact Hmore | exact Hmore | exact Hone].
  - cbn [run].
    destruct (notify_next_id c method params) as [Hn Hs].
    destruct (Client.notify L c method params) as [c1 r]. simpl in Hn, Hs.
    specialize (IH c1). destruct (run L c1 ops) as [c2 rs].
    destruct IH as [IHn IHs]. split; [lia|].
    now rewrite IHs, Hs, ids_app, ids_notification, app_nil_r, Hn.
Qed.

Lemma init_counter :
  Client._next_id (Client.__init__ L) = 1 /\ Client.sent (Client.__init__ L) = [].
Proof. unfold Client.__init__. now destruct (Server.main L _ _). Qed.

(** C7.  The counter starts at 1; each call of [request] takes the value of
    the counter as its id and adds one to it, so that the requests made on a
    connection carry the ids 1, 2, 3, ... in this order, whatever the server
    does; [notify] leaves the counter as it is and sends no id. *)
Theorem request_ids_count_from_one (ops : list op) :
  Client._next_id (Client.__init__ L) = 1
  /\ (let (c, rs) := run L (Client.__init__ L) ops in
      ids (Client.sent c) = map VInt (count_from 1 (List.length rs))
      /\ Client._next_id c = 1 + Z.of_nat (List.length rs))
  /\ (forall c method params,
        let c' := fst (Client.request L c method params) in
        Client._next_id c' = Client._next_id c + 1
        /\ Client.sent c'
           = Client.sent c ++ [Client.payload (Some (Client._next_id c)) method params])
  /\ (forall c method params,
        let c' := fst (Client.notify L c method params) in
        Client._next_id c' = Client._next_id c
        /\ Client.sent c' = Client.sent c ++ [Client.payload None method params]
        /\ ids [Client.payload None method params] = []).
Proof.
  destruct init_counter as [H1 H2].
  split; [assumption|]. split; [|split].
  - pose proof (run_counter ops (Client.__init__ L)) as H.
    destruct (run L (Client.__init__ L) ops) as [c rs].
    destruct H as [Hn Hs]. rewrite H1 in Hn, Hs. rewrite H2 in Hs. now split.
  - intros c method params. cbv zeta. rewrite request_is_exchange.
    apply exchange_next_id.
  - intros c method params. cbv zeta.
    destruct (notify_next_id c method params) as [Hn Hs].
    repeat split; [assumption | assumption | apply ids_notification].
Qed.

End Endpoint.

Section Connection.

Variable L : library.
Hypothesis codec_ok : codec L.

(** *** What the server does with the client's payloads *)

Lemma main_body_request (clock : nat) (i : Z) (method : string) (params : option value) :
  if (method =? "notifications/initialized")%string
  then Server.main_body L clock (Client.payload (Some i) method params) = Ok ([], clock)
  else exists response clock',
         Server.main_body L clock (Client.payload (Some i) method params)
         = Ok (Server._send L response, clock')
         /\ Py.get response "id" VNone = Ok (VInt i).
Proof.
  unfold Server.main_body, Client.payload. simpl.
  destruct (method =? "initialize")%string eqn:E1.
  { apply String.eqb_eq in E1. subst. simpl. eexists; eexists; split; reflexivity. }
  destruct (method =? "notifications/initialized")%string eqn:E2; [reflexivity|].
  destruct (method =? "tools/list")%string eqn:E3;
    [simpl; eexists; eexists; split; reflexivity|].
  destruct (method =? "tools/call")%string eqn:E4;
    [|simpl; eexists; eexists; split; reflexivity].
  destruct params as [p|]; simpl.
  - destruct (Server.try_tool_call L clock p) as [[result clock']|exc]; simpl;
      eexists; eexists; split; reflexivity.
  - destruct (Server.try_tool_call L clock (VDict [])) as [[result clock']|exc];
      simpl; eexists; eexists; split; reflexivity.
Qed.

Lemma main_body_notification (clock : nat) (method : string) (params : option value) :
  exists clock',
    Server.main_body L clock (Client.payload None method params) = Ok ([], clock').
Proof.
  pose proof (main_body_without_id L clock (Client.payload None method params)) as H.
  assert (has_id (Client.payload None method params) = false) as Hid
    by now destruct params.
  specialize (H Hid).
  assert (exists out clock',
            Server.main_body L clock (Client.payload None method params)
            = Ok (out, clock')) as (out & clock' & E).
  { unfold Server.main_body, Client.payload.
    assert (forall r : result (list byte * nat),
              (exists a b, r = Ok (a, b))
              -> exists out clock', r = Ok (out, clock')) as K by auto.
    destruct params as [p|]; simpl;
      (destruct (method =? "initialize")%string; [eauto|]);
      (destruct (method =? "notifications/initialized")%string; [eauto|]);
      (destruct (method =? "tools/list")%string; [eauto|]);
      (destruct (method =? "tools/call")%string; [|eauto]); simpl.
    - destruct (Server.try_tool_call L clock p) as [[result clock']|exc]; eauto.
    - destruct (Server.try_tool_call L clock (VDict [])) as [[result clock']|exc]; eauto. }
  rewrite E in H. subst out. eauto.
Qed.

Lemma send_quiet (c : Client.McpStdioClient) (req_id : option Z) (method : string)
    (params : option value) (out : list byte) (clock clock' : nat) :
  Client.server c = Server.Waiting [] clock ->
  Server.main_body L clock (Client.payload req_id method params) = Ok (out, clock') ->
  Client._send L c (Client.payload req_id method params)
  = ({| Client.server := Server.Waiting [] clock';
        Client.stdout := Client.stdout c ++ out;
        Client._next_id := Client._next_id c;
        Client.sent := Client.sent c ++ [Client.payload req_id method params] |}, Ok tt).
Proof.
  intros Hs Hb. unfold Client._send. rewrite Hs. cbn [app].
  rewrite <- (app_nil_r (Frame.frame _)).
  rewrite main_frame; [| apply codec_ok | apply codec_ok | reflexivity].
  rewrite Hb, main_waits. now rewrite app_nil_r.
Qed.

Lemma notify_quiet (c : Client.McpStdioClient) (method : string) (params : option value) :
  quiet c -> quiet (fst (Client.notify L c method params)).
Proof.
  intros [[clock Hs] Ho]. unfold Client.notify.
  destruct (main_body_notification clock method params) as [clock' Hb].
  rewrite (send_quiet c None method params _ _ _ Hs Hb). simpl.
  split; [eexists; reflexivity|]. simpl. now rewrite Ho.
Qed.

Lemma exchange_quiet (c : Client.McpStdioClient) (method : string) (params : option value) :
  quiet c ->
  if (method =? "notifications/initialized")%string
  then snd (Client.exchange L c method params) = Hangs
  else exists response,
         snd (Client.exchange L c method params) = Returned response
         /\ Py.get response "id" VNone = Ok (VInt (Client._next_id c))
         /\ quiet (fst (Client.exchange L c method params)).
Proof.
  intros [[clock Hs] Ho]. unfold Client.exchange.
  pose proof (main_body_request clock (Client._next_id c) method params) as Hb.
  destruct (method =? "notifications/initialized")%string.
  - rewrite (send_quiet (Client.with_next_id c (Client._next_id c + 1))
               (Some (Client._next_id c)) method params _ _ _ Hs Hb).
    unfold Client.stdout_closed. simpl. now rewrite Ho.
  - destruct Hb as (response & clock' & Hb & Hid).
    rewrite (send_quiet (Client.with_next_id c (Client._next_id c + 1))
               (Some (Client._next_id c)) method params _ _ _ Hs Hb).
    unfold Client.stdout_closed. simpl. rewrite Ho. simpl.
    rewrite <- (app_nil_r (Server._send L response)). unfold Server._send.
    rewrite client_read_frame, (proj1 codec_ok).
    exists response. split; [reflexivity|]. split; [assumption|].
    split; [eexists; reflexivity | reflexivity].
Qed.

Lemma run_quiet (ops : list op) :
  forall c,
    quiet c ->
    let (c', rs) := run L c ops in
    (forall k response,
       nth_error rs k = Some (Returned response) ->
       Py.get response "id" VNone = Ok (VInt (Client._next_id c + Z.of_nat k)))
    /\ (forallb answered ops = true ->
        List.length rs = List.length (filter is_request ops)
        /\ forallb is_returned rs = true).
Proof.
  induction ops as [|[method params | method params] ops IH]; intros c Hq.
  - simpl. split; [intros [|k] ? H; discriminate H | now split].
  - cbn [run].
    pose proof (exchange_quiet c method params Hq) as Hx.
    destruct (exchange_next_id L c method params) as [Hn _].
    destruct (Client.exchange L c method params) as [c1 r]. simpl in Hx, Hn.
    cbn [forallb answered filter is_request].
    destruct (method =? "notifications/initialized")%string.
    + subst r. split.
      * intros [|[|k]] response H; discriminate H.
      * discriminate.
    + destruct Hx as (response & -> & Hid & Hq1).
      specialize (IH c1 Hq1). destruct (run L c1 ops) as [c2 rs].
      destruct IH as [IHid IHall]. split.
      * intros [|k] response' H.
        -- injection H as <-. now rewrite Z.add_0_r.
        -- apply IHid in H. rewrite H, Hn. do 2 f_equal. lia.
      * intros Ha. destruct (IHall Ha) as [Hlen Hret]. simpl.
        now rewrite Hlen, Hret.
  - cbn [run].
    pose proof (notify_quiet c method params Hq) as Hq1.
    destruct (notify_next_id L c method params) as [Hn _].
    destruct (Client.notify L c method params) as [c1 r]. simpl in Hq1, Hn.
    specialize (IH c1 Hq1). destruct (run L c1 ops) as [c2 rs].
    rewrite Hn in IH. exact IH.
Qed.

Lemma nth_error_count_from (n k : nat) (start : Z) :
  (k < n)%nat ->
  nth_error (map VInt (count_from start n)) k = Some (VInt (start + Z.of_nat k)).
Proof.
  revert k start; induction n as [|n IH]; intros [|k] start H; try lia.
  - simpl. now rewrite Z.add_0_r.
  - simpl. rewrite IH by lia. do 2 f_equal. lia.
Qed.

(** C2.  The calls are made one after the other on one connection to this
    server.  The k-th request that gets its response reads a frame whose id
    is k, the id that this request sent: the responses come in the order of
    the requests.  Every request gets its response, unless it asks for
    [notifications/initialized], which the server does not answer. *)
Theorem responses_match_requests (ops : list op) :
  let (c, rs) := run L (Client.__init__ L) ops in
  (forall k response,
     nth_error rs k = Some (Returned response) ->
     nth_error (ids (Client.sent c)) k = Some (VInt (Z.of_nat (S k)))
     /\ Py.get response "id" VNone = Ok (VInt (Z.of_nat (S k))))
  /\ (forallb answered ops = true ->
      List.length rs = List.length (filter is_request ops)
      /\ forallb is_returned rs = true).
Proof.
  assert (quiet (Client.__init__ L)) as Hq.
  { unfold Client.__init__. rewrite main_waits.
    split; [eexists; reflexivity | reflexivity]. }
  pose proof (run_quiet ops (Client.__init__ L) Hq) as H.
  pose proof (run_counter L ops (Client.__init__ L)) as Hc.
  destruct (init_counter L) as [H1 H2].
  destruct (run L (Client.__init__ L) ops) as [c rs].
  destruct H as [Hid Hall]. destruct Hc as [_ Hs].
  rewrite H1 in Hid, Hs. rewrite H2 in Hs. simpl in Hs. split; [|assumption].
  intros k response Hk. split.
  - rewrite Hs, nth_error_count_from.
    + do 2 f_equal. lia.
    + apply nth_error_Some. congruence.
  - rewrite (Hid k response Hk). do 2 f_equal. lia.
Qed.

End Connection.

(** ** The tool-calling loop (C6) *)

Section Loop.

Variable L : library.
Variable World : Type.
Variable _openai_chat :
  World -> string -> list value -> list value -> result value * World.




End Loop.



(** A model that asks for the maintenance tool each time: 8 calls of the
    model, then the sentinel. *)
Lemma eight_rounds_then_sentinel :
  let (st, r) :=
    Client.run_llm_flow Json.lib (asks_for "maintenance" "{}") tt "hi" "gpt-4o-mini" in
  List.length (Client.chat_log st) = 8%nat
  /\ r = Returned (VStr "Stopped after max tool-call iterations.").
Proof. vm_compute. now split. Qed.

(** ** The JSON codec carries every value *)

Lemma expect_prefix (p rest : list byte) : Json.expect p (p ++ rest) = Some rest.
Proof.
  unfold Json.expect.
  assert (Bytes.startswith (p ++ rest) p = true) as ->.
  { induction p as [|c p IH]; [now destruct rest|]. simpl. now rewrite byte_eqb_refl. }
  now rewrite skipn_app, Nat.sub_diag, skipn_all.
Qed.

Lemma expect_lit (p rest l : list byte) :
  l = p ++ rest -> Json.expect p l = Some rest.
Proof. intros ->. apply expect_prefix. Qed.

Lemma expect_head (c d : byte) (p l : list byte) :
  Byte.eqb c d = false -> Json.expect (d :: p) (c :: l) = None.
Proof. intros H. unfold Json.expect. simpl. now rewrite H. Qed.

Lemma parse_chars_escaped (bs rest : list byte) :
  Json.parse_chars (flat_map Json.escape bs ++ x22 :: rest) = Some (bs, rest).
Proof.
  induction bs as [|c bs IH]; [reflexivity|].
  cbn [flat_map]. rewrite <- app_assoc.
  destruct c; simpl; rewrite IH; reflexivity.
Qed.

Lemma parse_string_encoded (s : string) (rest : list byte) :
  Json.parse_string (Json.encode_string s ++ rest) = Some (s, rest).
Proof.
  unfold Json.parse_string, Json.encode_string.
  change (x22 :: flat_map Json.escape (list_byte_of_string s) ++ [x22])
    with ([x22] ++ flat_map Json.escape (list_byte_of_string s) ++ [x22]).
  rewrite <- !app_assoc, expect_prefix. simpl.
  now rewrite parse_chars_escaped, string_of_list_byte_of_string.
Qed.

Lemma span_digits_all (ds rest : list byte) :
  Forall is_digit ds -> no_digit_ahead rest ->
  Json.span_digits (ds ++ rest) = (ds, rest).
Proof.
  intros Hds Hrest. induction Hds as [|c ds [d Hd] _ IH].
  - destruct rest as [|c rest]; [reflexivity|]. simpl in *. now rewrite Hrest.
  - simpl. now rewrite Hd, IH.
Qed.

Lemma parse_int_unsigned (c : byte) (l : list byte) :
  c <> x2d ->
  Json.parse_int (c :: l)
  = let (ds, rest) := Json.span_digits (c :: l) in
    option_map (fun n => (n, rest)) (Bytes.int_digits 0 false ds).
Proof. intros H. destruct c; try reflexivity. contradiction. Qed.

Lemma parse_int_of_int (z : Z) (rest : list byte) :
  no_digit_ahead rest -> Json.parse_int (Bytes.of_int z ++ rest) = Some (z, rest).
Proof.
  intros Hrest. destruct (Z_lt_le_dec z 0) as [Hz|Hz].
  - rewrite of_int_neg by assumption.
    destruct (digits_spec (- z)) as (Hd & Hne & Hv); [lia|].
    simpl. rewrite span_digits_all by assumption.
    rewrite int_digits_value, Hv by assumption. simpl. do 2 f_equal. lia.
  - rewrite of_int_nonneg by assumption.
    destruct (digits_spec z) as (Hd & Hne & Hv); [assumption|].
    destruct (digits z) as [|c ds] eqn:E; [easy|].
    assert (c <> x2d) as Hc by (apply is_digit_facts; now inversion Hd).
    rewrite <- app_comm_cons, parse_int_unsigned by assumption.
    rewrite app_comm_cons, span_digits_all by assumption.
    now rewrite int_digits_value, Hv.
Qed.

(** A number starts with a digit or with a minus sign: no other kind of
    value starts so. *)
Lemma of_int_head (z : Z) :
  exists c tl, Bytes.of_int z = c :: tl /\ (c = x2d \/ is_digit c).
Proof.
  destruct (Z_lt_le_dec z 0) as [Hz|Hz].
  - rewrite of_int_neg by assumption. eauto.
  - rewrite of_int_nonneg by assumption.
    destruct (digits_spec z) as (Hd & Hne & _); [assumption|].
    destruct (digits z) as [|c ds]; [easy|]. exists c, ds. split; [reflexivity|].
    right. now inversion Hd.
Qed.

Lemma number_head (c : byte) :
  c = x2d \/ is_digit c ->
  Byte.eqb c x6e = false /\ Byte.eqb c x74 = false /\ Byte.eqb c x66 = false
  /\ Byte.eqb c x5b = false /\ Byte.eqb c x7b = false /\ Byte.eqb c x22 = false
  /\ Byte.eqb c x5d = false /\ Byte.eqb c x7d = false.
Proof.
  intros [-> | [d Hd]]; [now repeat split|].
  destruct c; try discriminate Hd; now repeat split.
Qed.

Lemma parse_value_number (fuel : nat) (z : Z) (rest : list byte) :
  no_digit_ahead rest ->
  Json.parse_value (S fuel) (Bytes.of_int z ++ rest) = Some (VInt z, rest).
Proof.
  intros Hrest. pose proof (parse_int_of_int z rest Hrest) as Hp.
  destruct (of_int_head z) as (c & tl & E & Hc). rewrite E in *.
  destruct (number_head c Hc) as (H1 & H2 & H3 & H4 & H5 & H6 & _).
  cbn [Json.parse_value]. rewrite <- app_comm_cons in *.
  change (Bytes.lit "null") with [x6e; x75; x6c; x6c].
  change (Bytes.lit "true") with [x74; x72; x75; x65].
  change (Bytes.lit "false") with [x66; x61; x6c; x73; x65].
  rewrite !expect_head by assumption.
  unfold Json.parse_string. rewrite expect_head by assumption.
  now rewrite Hp.
Qed.

Ltac literals :=
  change (Bytes.lit "null") with [x6e; x75; x6c; x6c];
  change (Bytes.lit "true") with [x74; x72; x75; x65];
  change (Bytes.lit "false") with [x66; x61; x6c; x73; x65];
  cbn [app].

Ltac other_heads := repeat (rewrite expect_head by reflexivity).

(** No value starts with a closing bracket. *)
Lemma encode_head (v : value) :
  exists c tl, Json.encode v = c :: tl /\ Byte.eqb c x5d = false.
Proof.
  destruct v as [|[|]|z|s|[|v0 vs]|[|kv kvs]]; try (eexists; eexists; split; reflexivity).
  destruct (of_int_head z) as (c & tl & E & Hc). exists c, tl. split; [exact E|].
  now apply number_head.
Qed.

Lemma tail_no_digit (vs : list value) (rest : list byte) :
  no_digit_ahead (Json.items_tail Json.encode vs ++ rest).
Proof. now destruct vs. Qed.

Lemma members_no_digit (kvs : list (string * value)) (rest : list byte) :
  no_digit_ahead (Json.members_tail Json.encode kvs ++ rest).
Proof. now destruct kvs. Qed.

Lemma parse_round_trip (fuel : nat) :
  (forall v rest,
     (List.length (Json.encode v) < fuel)%nat -> no_digit_ahead rest ->
     Json.parse_value fuel (Json.encode v ++ rest) = Some (v, rest))
  /\ (forall vs rest,
        (List.length (Json.items_tail Json.encode vs) < fuel)%nat ->
        Json.parse_items fuel (Json.items_tail Json.encode vs ++ rest) = Some (vs, rest))
  /\ (forall k v rest,
        (List.length (Json.encode_string k ++ x3a :: x20 :: Json.encode v) < fuel)%nat ->
        no_digit_ahead rest ->
        Json.parse_member fuel (Json.encode_string k ++ x3a :: x20 :: Json.encode v ++ rest)
        = Some ((k, v), rest))
  /\ (forall kvs rest,
        (List.length (Json.members_tail Json.encode kvs) < fuel)%nat ->
        Json.parse_members fuel (Json.members_tail Json.encode kvs ++ rest)
        = Some (kvs, rest)).
Proof.
  induction fuel as [|fuel (IHv & IHi & IHm & IHs)].
  { repeat split; intros; lia. }
  split; [|split; [|split]].
  - intros v rest Hlen Hrest.
    destruct v as [|[|]|z|s|[|v0 vs]|[|[k0 v0] kvs]].
    + cbn [Json.parse_value Json.encode]. literals.
      now rewrite (expect_lit [x6e; x75; x6c; x6c] rest).
    + cbn [Json.parse_value Json.encode]. literals. other_heads.
      now rewrite (expect_lit [x74; x72; x75; x65] rest).
    + cbn [Json.parse_value Json.encode]. literals. other_heads.
      now rewrite (expect_lit [x66; x61; x6c; x73; x65] rest).
    + now apply parse_value_number.
    + cbn [Json.parse_value Json.encode]. unfold Json.encode_string at 1.
      literals. other_heads. unfold Json.parse_string.
      rewrite (expect_lit [x22] ((flat_map Json.escape (list_byte_of_string s) ++ [x22])
                                 ++ rest)) by reflexivity.
      rewrite <- app_assoc. cbn [app].
      now rewrite parse_chars_escaped, string_of_list_byte_of_string.
    + cbn [Json.parse_value Json.encode]. literals. other_heads.
      now rewrite (expect_lit [x5b; x5d] rest).
    + cbn [Json.encode] in *. cbn [Json.parse_value].
      rewrite <- app_comm_cons, <- app_assoc. literals. other_heads.
      assert (Json.expect [x5b; x5d]
                (x5b :: Json.encode v0 ++ Json.items_tail Json.encode vs ++ rest) = None)
        as ->.
      { destruct (encode_head v0) as (c & tl & -> & Hc).
        unfold Json.expect. simpl. now rewrite Hc. }
      other_heads.
      rewrite (expect_lit [x5b] (Json.encode v0 ++ Json.items_tail Json.encode vs
                                 ++ rest)) by reflexivity.
      simpl in Hlen. rewrite length_app in Hlen.
      rewrite IHv by (try apply tail_no_digit; lia).
      now rewrite IHi by lia.
    + cbn [Json.parse_value Json.encode]. literals. other_heads.
      now rewrite (expect_lit [x7b; x7d] rest).
    + cbn [Json.encode fst snd] in *. cbn [Json.parse_value].
      rewrite <- app_comm_cons. rewrite <- !app_assoc. rewrite <- !app_comm_cons.
      rewrite <- !app_assoc.
      cbn [List.length] in Hlen. rewrite !length_app in Hlen.
      cbn [List.length] in Hlen. rewrite !length_app in Hlen.
      remember (Json.encode v0 ++ Json.members_tail Json.encode kvs ++ rest) as after.
      unfold Json.encode_string at 1. literals. other_heads.
      rewrite <- ?app_assoc. cbn [app].
      match goal with
      | |- context [Json.expect [x7b; x7d] ?l] =>
          replace (Json.expect [x7b; x7d] l) with (@None (list byte)) by reflexivity
      end.
      other_heads.
      rewrite (expect_lit [x7b]
                 (Json.encode_string k0 ++ x3a :: x20 :: after)) by reflexivity.
      subst after. rewrite IHm.
      * now rewrite IHs by lia.
      * rewrite !length_app. cbn [List.length]. lia.
      * apply members_no_digit.
  - intros vs rest Hlen. destruct vs as [|v vs].
    + cbn [Json.parse_items Json.items_tail app].
      now rewrite (expect_lit [x5d] rest).
    + cbn [Json.items_tail] in *. cbn [Json.parse_items].
      rewrite <- !app_comm_cons, <- app_assoc. other_heads.
      rewrite (expect_lit [x2c; x20]
                 (Json.encode v ++ Json.items_tail Json.encode vs ++ rest))
        by reflexivity.
      simpl in Hlen. rewrite length_app in Hlen.
      rewrite IHv by (try apply tail_no_digit; lia).
      now rewrite IHi by lia.
  - intros k v rest Hlen Hrest. cbn [Json.parse_member].
    rewrite parse_string_encoded.
    rewrite (expect_lit [x3a; x20] (Json.encode v ++ rest)) by reflexivity.
    rewrite length_app in Hlen. simpl in Hlen.
    now rewrite IHv by (try assumption; lia).
  - intros kvs rest Hlen. destruct kvs as [|[k v] kvs].
    + cbn [Json.parse_members Json.members_tail app].
      now rewrite (expect_lit [x7d] rest).
    + cbn [Json.members_tail fst snd] in *. cbn [Json.parse_members].
      rewrite <- !app_comm_cons. rewrite <- !app_assoc. rewrite <- !app_comm_cons.
      rewrite <- !app_assoc. other_heads.
      rewrite (expect_lit [x2c; x20]
                 (Json.encode_string k ++ x3a :: x20 :: Json.encode v
                  ++ Json.members_tail Json.encode kvs ++ rest))
        by reflexivity.
      cbn [List.length] in Hlen. rewrite !length_app in Hlen.
      cbn [List.length] in Hlen. rewrite !length_app in Hlen.
      rewrite IHm.
      * now rewrite IHs by lia.
      * rewrite !length_app. cbn [List.length]. lia.
      * apply members_no_digit.
Qed.

Lemma decode_encode (v : value) : Json.decode (Json.encode v) = Some v.
Proof.
  unfold Json.decode.
  destruct (parse_round_trip (S (List.length (Json.encode v)))) as [H _].
  specialize (H v [] (Nat.lt_succ_diag_r _) I).
  rewrite app_nil_r in H. now rewrite H.
Qed.

Lemma json_codec : codec Json.lib.
Proof. split; [exact decode_encode | reflexivity]. Qed.

(** ** The theorems at concrete inputs *)

(** A request for [notifications/initialized] among the requests of a
    session: the first request gets its response, the second one is sent
    with the id 2 and gets none, [request] does not return from it, and the
    third request is never sent. *)
Lemma initialized_request_is_never_answered :
  let ops := [Request "initialize" (Some Client.initialize_params);
              Request "notifications/initialized" None;
              Request "tools/list" None] in
  let (c, rs) := run Json.lib (Client.__init__ Json.lib) ops in
  rs = [Returned (VDict [("jsonrpc", VStr "2.0"); ("id", VInt 1);
                         ("result", Server.initialize_result)]);
        Hangs]
  /\ ids (Client.sent c) = [VInt 1; VInt 2]
  /\ Client.stdout c = []
  /\ snd (Client.request Json.lib (Client.__init__ Json.lib)
            "notifications/initialized" None) = Hangs.
Proof. vm_compute. now repeat split. Qed.

Lemma responses_match_requests_witness :
  codec Json.lib
  /\ (let (c, rs) := run Json.lib (Client.__init__ Json.lib) sample_ops in
      (forall k response,
         nth_error rs k = Some (Returned response) ->
         nth_error (ids (Client.sent c)) k = Some (VInt (Z.of_nat (S k)))
         /\ Py.get response "id" VNone = Ok (VInt (Z.of_nat (S k))))
      /\ (forallb answered sample_ops = true ->
          List.length rs = List.length (filter is_request sample_ops)
          /\ forallb is_returned rs = true)).
Proof.
  split; [exact json_codec|].
  exact (responses_match_requests Json.lib json_codec sample_ops).
Defined.

Lemma tools_call_failure_is_error_response_witness :
  let params := VDict [("name", VStr "foo")] in
  let request := call_of (VInt 7) params in
  let error :=
    VDict [("jsonrpc", VStr "2.0"); ("id", VInt 7);
           ("error", VDict [("code", VInt (-32000));
                            ("message", VStr "Unknown tool: foo")])] in
  (Py.get request "method" VNone = Ok (VStr "tools/call")
   /\ Py.get request "id" VNone = Ok (VInt 7)
   /\ Py.is_none (VInt 7) = false
   /\ Py.get request "params" (VDict []) = Ok params
   /\ codec Json.lib)
  /\ Server.main_body Json.lib 0 request = Ok (Frame.frame (dumps Json.lib error), 0%nat)
  /\ Server.main Json.lib (Stream (Frame.frame (dumps Json.lib request)) false) 0
     = (Frame.frame (dumps Json.lib error), Server.Waiting [] 0)
  /\ Client._read Json.lib (Stream (Frame.frame (dumps Json.lib error) ++ []) false)
     = Return error [].
Proof.
  intros params request error.
  split; [repeat split; try reflexivity; apply json_codec|].
  destruct (tools_call_failure_is_error_response Json.lib 0 request (VInt 7) params
              [] false eq_refl eq_refl eq_refl eq_refl json_codec)
    as (R & A & _).
  destruct (A (VStr "foo") eq_refl eq_refl) as [A1 A2].
  split; [exact A1|]. split.
  - rewrite <- (app_nil_r (Frame.frame (dumps Json.lib request))). rewrite A2.
    reflexivity.
  - exact (proj2 (R "Unknown tool: foo" [])).
Defined.

Lemma unknown_method_and_missing_id_witness :
  let request := VDict [("jsonrpc", VStr "2.0"); ("id", VInt 3); ("method", VStr "ping")] in
  let notification := VDict [("jsonrpc", VStr "2.0"); ("method", VStr "ping")] in
  let error :=
    VDict [("jsonrpc", VStr "2.0"); ("id", VInt 3);
           ("error", VDict [("code", VInt (-32601));
                            ("message", VStr "Method not found: ping")])] in
  (Py.get request "method" VNone = Ok (VStr "ping")
   /\ known_method (VStr "ping") = false
   /\ Py.get request "id" VNone = Ok (VInt 3)
   /\ Py.is_none (VInt 3) = false
   /\ has_id notification = false
   /\ codec Json.lib)
  /\ Server.main_body Json.lib 0 request = Ok (Frame.frame (dumps Json.lib error), 0%nat)
  /\ Client._read Json.lib (Stream (Frame.frame (dumps Json.lib error) ++ []) false)
     = Return error []
  /\ match Server.main_body Json.lib 0 notification with
     | Ok (out, _) => out = []
     | Err _ => True
     end.
Proof.
  intros request notification error.
  split; [repeat split; try reflexivity; apply json_codec|].
  destruct (proj1 (unknown_method_and_missing_id Json.lib 0 request)
              (VStr "ping") (VInt 3) eq_refl eq_refl eq_refl eq_refl) as (A & _ & B).
  split; [exact A|]. split; [exact (B json_codec [])|].
  exact (proj2 (unknown_method_and_missing_id Json.lib 0 notification) eq_refl).
Defined.

Lemma maintenance_45000_witness :
  let request :=
    call_of (VInt 4)
      (VDict [("name", VStr "maintenance");
              ("arguments", VDict [("current_mileage", VInt 45000)])]) in
  let result :=
    VDict [("service", VStr "Maintenance"); ("mileage", VInt 45000);
           ("overdue_items", VList [VStr "brake fluid"; VStr "air filter"]);
           ("recommended_window_days", VInt 7)] in
  let response :=
    VDict [("jsonrpc", VStr "2.0"); ("id", VInt 4);
           ("result",
            VDict [("content",
                    VList [VDict [("type", VStr "text");
                                  ("text",
                                   VStr (string_of_list_byte (dumps Json.lib result)))]]);
                   ("isError", VBool false)])] in
  (Py.is_none (VInt 4) = false /\ codec Json.lib)
  /\ Server.main_body Json.lib 0 request = Ok (Frame.frame (dumps Json.lib response), 0%nat)
  /\ Client.json_loads Json.lib (VStr (string_of_list_byte (dumps Json.lib result)))
     = Ok result.
Proof.
  intros request result response.
  split; [split; [reflexivity | apply json_codec]|].
  destruct (maintenance_45000 Json.lib 0 (VInt 4) eq_refl json_codec)
    as (_ & _ & A & _ & B & _).
  split; [exact A | exact B].
Defined.

Lemma missing_arguments_use_defaults_witness :
  let items := [("name", VStr "maintenance"); ("arguments", VNone)] in
  let request := call_of (VInt 1) (VDict items) in
  (Py.get request "method" VNone = Ok (VStr "tools/call")
   /\ Py.get request "id" VNone = Ok (VInt 1)
   /\ Py.get request "params" (VDict []) = Ok (VDict items)
   /\ Py.lookup "name" items = Some (VStr "maintenance")
   /\ In "maintenance" (map fst Server.TOOLS)
   /\ Py.lookup "arguments" items = Some VNone)
  /\ exists result clock',
       handler_default Json.lib "maintenance" 0 = Ok (result, clock')
       /\ Server.try_tool_call Json.lib 0 (VDict items)
          = Server._tool_call Json.lib 0 (VStr "maintenance") (VDict [])
       /\ Server._tool_call Json.lib 0 (VStr "maintenance") (VDict [])
          = Ok (Server.tool_result Json.lib result, clock')
       /\ Server.main_body Json.lib 0 request
          = Ok (Server.reply Json.lib (VInt 1)
                  (Server.response (VInt 1) (Server.tool_result Json.lib result)), clock').
Proof.
  intros items request.
  assert (In "maintenance" (map fst Server.TOOLS)) as Hin
    by (simpl; now repeat (try (left; reflexivity); right)).
  split; [now repeat split|].
  exact (missing_arguments_use_defaults Json.lib 0 request (VInt 1) "maintenance" items
           eq_refl eq_refl eq_refl eq_refl Hin (or_intror eq_refl)).
Defined.

(** * Properties of the rest of the code *)

(** ** What one turn of [main] writes *)

Section Turn.

Variable L : library.

Lemma main_body_dict (clock : nat) (items : list (string * value)) :
  let request := VDict items in
  exists payload clock',
    Server.main_body L clock request
    = Ok (if Py.eq_str (method_of request) "notifications/initialized" then []
          else Server.reply L (id_of request) payload, clock')
    /\ ((exists result, payload = Server.response (id_of request) result)
        \/ (exists code message,
              (code = -32000 \/ code = -32601)
              /\ payload = Server.error_response (id_of request) code message)).
Proof.
  intros request. unfold Server.main_body, method_of, id_of, request. cbn [Py.get].
  set (method := match Py.lookup "method" items with Some v => v | None => VNone end).
  assert (match Py.lookup "method" items with
          | Some v => Ok v
          | None => Ok VNone
          end = Ok method) as ->
    by (unfold method; now destruct (Py.lookup "method" items)).
  set (request_id := match Py.lookup "id" items with Some v => v | None => VNone end).
  assert (match Py.lookup "id" items with
          | Some v => Ok v
          | None => Ok VNone
          end = Ok request_id) as ->
    by (unfold request_id; now destruct (Py.lookup "id" items)).
  cbn [bind].
  destruct (Py.eq_str method "initialize") eqn:E1.
  { assert (Py.eq_str method "notifications/initialized" = false) as ->.
    { destruct method; try reflexivity. simpl in E1. apply String.eqb_eq in E1. now subst. }
    eexists; eexists; split; [reflexivity | left; eauto]. }
  destruct (Py.eq_str method "notifications/initialized") eqn:E2.
  { exists (Server.response request_id VNone), clock. split; [reflexivity | left; eauto]. }
  destruct (Py.eq_str method "tools/list").
  { eexists; eexists; split; [reflexivity | left; eauto]. }
  destruct (Py.eq_str method "tools/call").
  - set (params := match Py.lookup "params" items with Some v => v | None => VDict [] end).
    assert (match Py.lookup "params" items with
            | Some v => Ok v
            | None => Ok (VDict [])
            end = Ok params) as ->
      by (unfold params; now destruct (Py.lookup "params" items)).
    cbn [bind].
    destruct (Server.try_tool_call L clock params) as [[result clock']|exc].
    + eexists; eexists; split; [reflexivity | left; eauto].
    + eexists; eexists; split; [reflexivity | right; eauto].
  - eexists; eexists; split; [reflexivity | right; eauto].
Qed.

Lemma main_body_not_dict (clock : nat) (request : value) :
  is_dict request = false ->
  Server.main_body L clock request = Err (Py.no_attribute request "get").
Proof. intros H. now destruct request. Qed.



End Turn.

(** ** What [main] writes *)

Section Output.

Variable L : library.

Lemma envelope_id (request_id payload : value) :
  envelope request_id payload -> id_of payload = request_id.
Proof. intros [_ [[result ->] | (code & message & _ & ->)]]; reflexivity. Qed.

(** One turn on a JSON object, in terms of the replies. *)
Lemma main_body_replies (clock : nat) (request : value) :
  is_dict request = true ->
  exists replies clock',
    Server.main_body L clock request
    = Ok (List.concat (map (Server._send L) replies), clock')
    /\ map id_of replies = map id_of (filter expects_reply [request])
    /\ Forall (fun p => envelope (id_of p) p) replies.
Proof.
  destruct request as [| | | | |items]; try discriminate. intros _.
  destruct (main_body_dict L clock items) as (payload & clock' & E & Hp).
  cbv zeta in E, Hp. cbn [filter]. unfold expects_reply, has_id.
  change (Py.get (VDict items) "id" VNone) with
    (match Py.lookup "id" items with Some v => Ok v | None => Ok VNone end).
  assert (match
             match Py.lookup "id" items with Some v => Ok v | None => Ok VNone end
           with
           | Ok request_id => negb (Py.is_none request_id)
           | Err _ => false
           end = negb (Py.is_none (id_of (VDict items)))) as ->
    by (unfold id_of; simpl; now destruct (Py.lookup "id" items)).
  destruct (Py.eq_str (method_of (VDict items)) "notifications/initialized").
  { exists [], clock'. rewrite andb_false_r. now repeat split. }
  rewrite andb_true_r. unfold Server.reply in E.
  destruct (Py.is_none (id_of (VDict items))) eqn:N.
  { exists [], clock'. now repeat split. }
  assert (envelope (id_of (VDict items)) payload) as He by now split.
  exists [payload], clock'. simpl. rewrite app_nil_r.
  split; [exact E|]. rewrite (envelope_id _ _ He). split; [reflexivity|].
  constructor; [|constructor]. now rewrite (envelope_id _ _ He).
Qed.



Lemma main_at_end (clock : nat) :
  Server.main L (Stream [] true) clock = ([], Server.Exited).
Proof. reflexivity. Qed.

(** X3.  Requests written back to back, before any response is read: [main]
    answers those that carry an id, but for [notifications/initialized], in
    the order of their arrival and each with the id of its request; then it
    waits for the next frame, or leaves its loop at the end of the stream. *)
Theorem pipelined_requests (requests : list value) (eof : bool) (clock : nat) :
  codec L ->
  forallb is_dict requests = true ->
  exists replies clock',
    Server.main L
      (Stream (List.concat (map (fun r => Frame.frame (dumps L r)) requests)) eof) clock
    = (List.concat (map (Server._send L) replies),
       if eof then Server.Exited else Server.Waiting [] clock')
    /\ map id_of replies = map id_of (filter expects_reply requests)
    /\ Forall (fun p => envelope (id_of p) p) replies.
Proof.
  intros [Hc He] Hd. revert clock.
  induction requests as [|request requests IH]; intros clock.
  - exists [], clock. simpl. split; [|now split].
    destruct eof; [apply main_at_end | apply main_waits].
  - simpl in Hd. apply andb_true_iff in Hd as [D Hd]. specialize (IH Hd).
    cbn [map List.concat].
    rewrite main_frame; [|apply Hc | exact He | now destruct request].
    destruct (main_body_replies clock request D) as (r1 & clock1 & -> & Hid1 & Hr1).
    destruct (IH clock1) as (r2 & clock2 & -> & Hid2 & Hr2).
    exists (r1 ++ r2), clock2. rewrite !map_app, concat_app.
    split; [reflexivity|]. split; [|now apply Forall_app].
    rewrite Hid1, Hid2. cbn [filter].
    destruct (expects_reply request); reflexivity.
Qed.

End Output.

(** ** The tools and their arguments *)

Section Tools.

Variable L : library.

(** X4.  [_tool_call] knows exactly the tools of [TOOLS]: it raises
    [ValueError] if and only if the name is not a key of the table, and
    then with the message [Unknown tool: <name>]. *)
Theorem unknown_tool_iff_unregistered (clock : nat) (name arguments : value) :
  ((exists msg, Server._tool_call L clock name arguments = Err (ValueError msg))
   <-> registered name = false)
  /\ (registered name = false ->
      Server._tool_call L clock name arguments
      = Err (ValueError ("Unknown tool: " ++ Text.str L name))).
Proof.
  split; [|apply tool_call_unregistered].
  split.
  - intros [msg E]. destruct (registered name) eqn:R; [|reflexivity]. exfalso.
    unfold Server._tool_call in E. unfold registered in R. simpl in R.
    assert (forall (k : string) (d : value) (f : value -> result (value * nat)),
              (forall a, f a <> Err (ValueError msg)) ->
              (a <- Py.get arguments k d ;; f a) <> Err (ValueError msg)) as K.
    { intros k d f Hf. destruct arguments; simpl; try discriminate.
      destruct (Py.lookup k items); simpl; apply Hf. }
    destruct (Py.eq_str name "diagnostics").
    { revert E. apply K. intros a. now destruct a. }
    destruct (Py.eq_str name "navigation").
    { revert E. apply K. intros a. discriminate. }
    destruct (Py.eq_str name "weather").
    { revert E. apply K. intros a. discriminate. }
    destruct (Py.eq_str name "maintenance").
    { revert E. apply K. intros a. now destruct a. }
    destruct (Py.eq_str name "emergency").
    { revert E. apply K. intros a. now destruct a. }
    destruct (Py.eq_str name "knowledge").
    { revert E. apply K. intros a. now destruct a. }
    destruct (Py.eq_str name "vehicle_info").
    { revert E. apply K. intros a. discriminate. }
    discriminate R.
  - intros R. eexists. now apply tool_call_unregistered.
Qed.

(** X5.  The property that the schema of a tool declares is the key that
    [_tool_call] reads for it: an argument given under this name is what
    the service of the tool is called with. *)
Theorem declared_property_is_read (clock : nat) (tool : string) (sp : Server.spec)
    (v : value) :
  In (tool, sp) Server.TOOLS ->
  exists property type,
    Server.inputSchema sp = Server.schema property type
    /\ Server._tool_call L clock (VStr tool) (VDict [(property, v)])
       = (r <- handler L tool clock v ;; Ok (Server.tool_result L (fst r), snd r)).
Proof.
  intros H. simpl in H.
  repeat (destruct H as [H | H];
          [injection H as <- <-; eexists; eexists; split; [reflexivity|];
           unfold Server._tool_call, handler; simpl;
           try reflexivity;
           try (now destruct (services.maintenance v));
           try (now destruct (services.emergency v));
           try (now destruct (services.knowledge v))|]).
  contradiction.
Qed.

(** X6.  [params.get("arguments", {}) or {}]: any value that counts as false
    ([None], [False], 0, the empty string, list or dict) stands for no
    arguments, so that the defaults apply; a value that counts as true and
    is no [dict] makes the call of a registered tool fail on
    [arguments.get]. *)
Theorem falsy_arguments_are_no_arguments (clock : nat) (items : list (string * value))
    (name arguments : value) :
  Py.lookup "name" items = Some name ->
  Py.lookup "arguments" items = Some arguments ->
  (Py.truthy arguments = false ->
   Server.try_tool_call L clock (VDict items) = Server._tool_call L clock name (VDict []))
  /\ (Py.truthy arguments = true -> is_dict arguments = false -> registered name = true ->
      Server.try_tool_call L clock (VDict items) = Err (Py.no_attribute arguments "get")).
Proof.
  intros Hn Ha. unfold Server.try_tool_call. simpl. rewrite Hn, Ha. simpl. split.
  - now intros ->.
  - intros -> Hd R. unfold registered in R. simpl in R. unfold Server._tool_call.
    repeat (match goal with
            | |- (if Py.eq_str name ?s then _ else _) = _ =>
                destruct (Py.eq_str name s); [now destruct arguments|]
            end).
    discriminate R.
Qed.



End Tools.

(** ** [maintenance] *)

(** X8.  [maintenance] with an integer mileage: 40000 is the limit.  Above
    it the two items are overdue and the window is 7 days; up to it, 40000
    included, nothing is overdue and the window is 30 days; the mileage is
    given back.  With [None], a [str], a [list] or a [dict] for the mileage
    the comparison raises [TypeError]. *)
Theorem maintenance_threshold (z : Z) :
  let plan overdue days :=
    VDict [("service", VStr "Maintenance"); ("mileage", VInt z);
           ("overdue_items", VList overdue);
           ("recommended_window_days", VInt days)] in
  (40000 < z ->
   services.maintenance (VInt z) = Ok (plan [VStr "brake fluid"; VStr "air filter"] 7))
  /\ (z <= 40000 -> services.maintenance (VInt z) = Ok (plan [] 30))
  /\ (forall v,
        is_number v = false ->
        services.maintenance v
        = Err (TypeError ("'>' not supported between instances of '"
                          ++ Py.type_name v ++ "' and 'int'"))).
Proof.
  intros plan. split; [|split].
  - intros H. unfold services.maintenance. simpl.
    assert ((40000 <? z) = true) as -> by lia. reflexivity.
  - intros H. unfold services.maintenance. simpl.
    assert ((40000 <? z) = false) as -> by lia. reflexivity.
  - intros v H. now destruct v.
Qed.

(** ** Headers as a peer may write them *)











(** ** Frames as a peer may write them *)

Section Peer.

Variable L : library.


End Peer.

(** ** Frames that have not arrived in full, bodies that are no objects *)

Lemma no_LF_prefix (p q : list byte) : no_LF (p ++ q) -> no_LF p.
Proof. intros H. now apply Forall_app in H. Qed.

Lemma readline_waits (p : list byte) :
  no_LF p -> Py.readline (Stream p false) = Block.
Proof. intros H. unfold Py.readline. simpl. now rewrite split_line_none. Qed.

Lemma header_loop_waits (fuel : nat) (p : list byte) (content_length : option Z) :
  no_LF p -> Frame.header_loop (S fuel) false p content_length = Block.
Proof. intros H. cbn [Frame.header_loop]. now rewrite readline_waits. Qed.

Lemma read_waits (n : nat) (b : list byte) :
  (List.length b < n)%nat -> Py.read (Z.of_nat n) (Stream b false) = Block.
Proof.
  intros H. unfold Py.read. simpl.
  assert ((Z.of_nat n <? -1) = false) as -> by lia.
  assert ((Z.of_nat n <? 0) = false) as -> by lia.
  rewrite Nat2Z.id.
  assert ((n <=? List.length b)%nat = false) as -> by (apply Nat.leb_gt; lia).
  reflexivity.
Qed.

(** The header of a frame, of which [p] has arrived and [q] has not. *)
Lemma headers_wait (n : Z) (p q : list byte) :
  Frame.header n = p ++ q -> q <> [] ->
  Frame.headers (Stream p false) = Block.
Proof.
  intros E Hq. unfold Frame.headers. cbn [buf closed].
  destruct (content_length_line_complete n) as (l & El & Hl).
  assert (Frame.header n = l ++ Bytes.LF :: Bytes.CRLF) as Eh.
  { unfold Frame.header. fold (Bytes.lit "Content-Length: ").
    replace (Bytes.lit "Content-Length: " ++ Bytes.of_int n ++ Bytes.CRLF ++ Bytes.CRLF)
      with (content_length_line n ++ Bytes.CRLF)
      by (unfold content_length_line; now rewrite <- !app_assoc).
    rewrite El, <- app_assoc. reflexivity. }
  rewrite Eh in E. apply app_eq_app in E as [r [[Ep Er] | [Ep Er]]].
  - (* [p] ends inside the first line *)
    apply header_loop_waits. rewrite Ep in Hl. now apply no_LF_prefix in Hl.
  - destruct r as [|c r].
    + apply header_loop_waits. rewrite app_nil_r in Ep. now subst.
    + injection Er as <- Er. subst p.
      replace (l ++ Bytes.LF :: r) with (content_length_line n ++ r)
        by (rewrite El, <- app_assoc; reflexivity).
      rewrite header_loop_content_length.
      assert (r = [] \/ r = [Bytes.CR]) as [-> | ->].
      { destruct r as [|c1 [|c2 r]].
        - now left.
        - injection Er as <- _. now right.
        - injection Er as <- <- Er. symmetry in Er. apply app_eq_nil in Er as [_ Er].
          contradiction. }
      * destruct (List.length (content_length_line n ++ [])) eqn:N;
          [rewrite El, !length_app in N; simpl in N; lia|].
        apply header_loop_waits. constructor.
      * destruct (List.length (content_length_line n ++ [Bytes.CR])) eqn:N;
          [rewrite length_app in N; simpl in N; lia|].
        apply header_loop_waits. now repeat constructor.
Qed.

Section Arrival.

Variable L : library.

(** X10.  While a frame has arrived only in part on a pipe that is still open,
    the server does nothing with it: [main] writes nothing and waits with
    every byte unread; the client's [_read] waits as well. *)
Theorem partial_frame_waits (body p q : list byte) (clock : nat) :
  Frame.frame body = p ++ q -> q <> [] ->
  Server.main L (Stream p false) clock = ([], Server.Waiting p clock)
  /\ Client._read L (Stream p false) = Block.
Proof.
  intros E Hq.
  assert (Frame.headers (Stream p false) = Block
          \/ exists b, (List.length b < List.length body)%nat
                       /\ Frame.headers (Stream p false)
                          = Return (Some (Some (Z.of_nat (List.length body)))) b) as H.
  { unfold Frame.frame in E. apply app_eq_app in E as [r [[Eh Er] | [-> Er]]].
    - destruct r as [|c r].
      + right. exists []. rewrite app_nil_r in Eh. subst p. simpl in Er. subst q.
        split; [destruct body; [contradiction | simpl; lia]|].
        rewrite <- (app_nil_r (Frame.header _)). apply headers_header.
      + left. apply (headers_wait (Z.of_nat (List.length body)) p (c :: r));
          [assumption | discriminate].
    - right. exists r. split; [|apply headers_header].
      subst body. rewrite length_app. destruct q; [contradiction | simpl; lia]. }
  split.
  - rewrite main_unfold. unfold Server._read_message.
    destruct H as [-> | (b & Hb & ->)]; [reflexivity|].
    cbn [closed]. now rewrite read_waits.
  - unfold Client._read.
    destruct H as [-> | (b & Hb & ->)]; [reflexivity|].
    cbn [closed]. now rewrite read_waits.
Qed.

(** X11.  A frame whose body is JSON but no object: on [null], [_read_message]
    returns [None] and [main] leaves its loop as at the end of the stream;
    on any other value [main] ends with the [AttributeError] of
    [request.get]; and a body that is no JSON ends it with the error of
    [json.loads]. *)
Theorem body_that_is_no_object (body rest : list byte) (eof : bool) (clock : nat) :
  body <> [] ->
  let stdin := Stream (Frame.frame body ++ rest) eof in
  match loads L body with
  | None => Server.main L stdin clock = ([], Server.Crashed JSONDecodeError)
  | Some VNone => Server.main L stdin clock = ([], Server.Exited)
  | Some request =>
      is_dict request = false ->
      Server.main L stdin clock = ([], Server.Crashed (Py.no_attribute request "get"))
  end.
Proof.
  intros Hb stdin. unfold stdin. rewrite main_unfold, server_read_frame by assumption.
  destruct (loads L body) as [request|]; [|reflexivity].
  destruct request; try reflexivity; try discriminate;
    intros _; cbn [Py.is_none]; now rewrite main_body_not_dict.
Qed.

End Arrival.

(** ** Calls on a quiet connection *)

Section Calls.

Variable L : library.
Hypothesis codec_ok : codec L.

Lemma exchange_reply (c : Client.McpStdioClient) (method : string) (params : option value)
    (clock clock' : nat) (response : value) :
  Client.server c = Server.Waiting [] clock -> Client.stdout c = [] ->
  Server.main_body L clock (Client.payload (Some (Client._next_id c)) method params)
  = Ok (Server._send L response, clock') ->
  Client.exchange L c method params
  = (settled c clock' (Client._next_id c + 1)
       [Client.payload (Some (Client._next_id c)) method params],
     Returned response).
Proof.
  intros Hs Ho Hb. unfold Client.exchange.
  rewrite (send_quiet L codec_ok (Client.with_next_id c (Client._next_id c + 1))
             (Some (Client._next_id c)) method params _ _ _ Hs Hb).
  unfold Client.stdout_closed. simpl. rewrite Ho. simpl.
  rewrite <- (app_nil_r (Server._send L response)). unfold Server._send.
  rewrite client_read_frame, (proj1 codec_ok). reflexivity.
Qed.

Lemma request_reply (c : Client.McpStdioClient) (method : string) (params : option value)
    (clock clock' : nat) (response : value) :
  Client.server c = Server.Waiting [] clock -> Client.stdout c = [] ->
  Server.main_body L clock (Client.payload (Some (Client._next_id c)) method params)
  = Ok (Server._send L response, clock') ->
  Client.request L c method params
  = (settled c clock' (Client._next_id c + 1)
       [Client.payload (Some (Client._next_id c)) method params],
     match Client.unwrap L response with
     | Ok v => Returned v
     | Err e => Failed e
     end).
Proof.
  intros Hs Ho Hb. unfold Client.request.
  rewrite (exchange_reply c method params clock clock' response Hs Ho Hb).
  now destruct (Client.unwrap L response).
Qed.

Lemma settled_quiet (c : Client.McpStdioClient) (clock : nat) (next_id : Z)
    (payloads : list value) :
  quiet (settled c clock next_id payloads).
Proof. split; [eexists; reflexivity | reflexivity]. Qed.

(** X12.  An error response of the server reaches the caller of [request] as a
    [RuntimeError] with the server's message: for a method that the server
    does not know, and for a tool that is not registered.  The connection
    can be used afterwards. *)
Theorem request_error_is_runtime_error (c : Client.McpStdioClient) (method tool : string)
    (params : option value) :
  quiet c ->
  (known_method (VStr method) = false ->
   snd (Client.request L c method params)
   = Failed (RuntimeError ("Method not found: " ++ method))
   /\ quiet (fst (Client.request L c method params)))
  /\ (registered (VStr tool) = false ->
      let call := Some (VDict [("name", VStr tool)]) in
      snd (Client.request L c "tools/call" call)
      = Failed (RuntimeError ("Unknown tool: " ++ tool))
      /\ quiet (fst (Client.request L c "tools/call" call))).
Proof.
  intros [[clock Hs] Ho]. split.
  - intros Hk.
    assert (Server.main_body L clock (Client.payload (Some (Client._next_id c)) method params)
            = Ok (Server._send L
                    (Server.error_response (VInt (Client._next_id c)) (-32601)
                       ("Method not found: " ++ method)), clock)) as Hb.
    { unfold known_method in Hk. simpl in Hk.
      repeat (apply orb_false_elim in Hk; destruct Hk as [Hk ?E]).
      unfold Server.main_body, Client.payload. simpl. now rewrite Hk, E1, E0, E. }
    rewrite (request_reply c method params clock clock _ Hs Ho Hb). simpl.
    split; [reflexivity | apply settled_quiet].
  - intros Hr call.
    assert (Server.main_body L clock
              (Client.payload (Some (Client._next_id c)) "tools/call" call)
            = Ok (Server._send L
                    (Server.error_response (VInt (Client._next_id c)) (-32000)
                       ("Unknown tool: " ++ tool)), clock)) as Hb.
    { unfold Server.main_body, Client.payload, call, Server.try_tool_call. simpl.
      now rewrite (tool_call_unregistered L clock (VStr tool) (VDict []) Hr). }
    rewrite (request_reply c "tools/call" call clock clock _ Hs Ho Hb). simpl.
    split; [reflexivity | apply settled_quiet].
Qed.

(** X13.  A request for [notifications/initialized] is never answered, although
    it carries an id: [request] uses up an id and does not return. *)
Theorem request_initialized_hangs (c : Client.McpStdioClient) (params : option value) :
  quiet c ->
  let (c', r) := Client.request L c "notifications/initialized" params in
  r = Hangs
  /\ Client._next_id c' = Client._next_id c + 1
  /\ Client.stdout c' = [].
Proof.
  intros [[clock Hs] Ho]. unfold Client.request, Client.exchange.
  assert (Server.main_body L clock
            (Client.payload (Some (Client._next_id c)) "notifications/initialized" params)
          = Ok ([], clock)) as Hb by now destruct params.
  rewrite (send_quiet L codec_ok (Client.with_next_id c (Client._next_id c + 1))
             (Some (Client._next_id c)) "notifications/initialized" params _ _ _ Hs Hb).
  unfold Client.stdout_closed. simpl. rewrite Ho. simpl. now repeat split.
Qed.

End Calls.

(** ** The session of the client *)

Section Session.

Variable L : library.
Hypothesis codec_ok : codec L.

Lemma init_settled :
  Client.__init__ L
  = {| Client.server := Server.Waiting [] 0; Client.stdout := [];
       Client._next_id := 1; Client.sent := [] |}.
Proof. reflexivity. Qed.

(** The three calls that open a session. *)
Lemma handshake :
  exists c1 c2 c3,
    Client.request L (Client.__init__ L) "initialize" (Some Client.initialize_params)
    = (c1, Returned Server.initialize_result)
    /\ Client.notify L c1 "notifications/initialized" None = (c2, Returned tt)
    /\ Client.request L c2 "tools/list" None
       = (c3, Returned (VDict [("tools", Server.tools_list)]))
    /\ quiet c3.
Proof.
  eexists; eexists; eexists.
  split; [|split; [|split]].
  - rewrite (request_reply L codec_ok (Client.__init__ L) "initialize"
               (Some Client.initialize_params) 0 0
               (Server.response (VInt 1) Server.initialize_result));
      reflexivity.
  - unfold Client.notify.
    rewrite (send_quiet L codec_ok _ None "notifications/initialized" None [] 0 0);
      reflexivity.
  - rewrite (request_reply L codec_ok _ "tools/list" None 0 0
               (Server.response (VInt 2) (VDict [("tools", Server.tools_list)])));
      reflexivity.
  - apply settled_quiet.
Qed.

(** X14.  [list_tools] prints one line for each tool of [TOOLS], in the order of
    the table, with the name and the description of the tool, and
    returns. *)
Theorem list_tools_prints_the_table :
  llm_client.list_tools L
  = (map (fun entry => "- " ++ fst entry ++ ": " ++ Server.description (snd entry))%string
         Server.TOOLS,
     Returned tt).
Proof.
  destruct handshake as (c1 & c2 & c3 & E1 & E2 & E3 & _).
  unfold llm_client.list_tools. rewrite E1, E2, E3. reflexivity.
Qed.

(** X15.  One tool call of the model on a quiet connection: the arguments are
    decoded, the tool is called on the server, and when it succeeds the
    message for the model carries the id of the call, the name of the tool
    and, as its content, the JSON text of the result of the service, which
    decodes to this result. *)
Theorem dispatch_tool_message (c : Client.McpStdioClient) (id : value) (tool text : string)
    (arguments r : value) (clock clock' : nat) :
  Client.server c = Server.Waiting [] clock -> Client.stdout c = [] ->
  loads L (list_byte_of_string text) = Some arguments ->
  Server.try_tool_call L clock (VDict [("name", VStr tool); ("arguments", arguments)])
  = Ok (Server.tool_result L r, clock') ->
  let content := VStr (string_of_list_byte (dumps L r)) in
  Client.dispatch L c (tool_call id tool text)
  = (settled c clock' (Client._next_id c + 1)
       [Client.payload (Some (Client._next_id c)) "tools/call"
          (Some (VDict [("name", VStr tool); ("arguments", arguments)]))],
     Returned (VDict [("role", VStr "tool"); ("tool_call_id", id);
                      ("name", VStr tool); ("content", content)]))
  /\ Client.json_loads L content = Ok r.
Proof.
  intros Hs Ho Ha Ht content. split.
  - unfold Client.dispatch, Client.tool_call_parts, tool_call. simpl. rewrite Ha. simpl.
    rewrite (request_reply L codec_ok c "tools/call" _ clock clock'
               (Server.response (VInt (Client._next_id c)) (Server.tool_result L r)) Hs Ho).
    + reflexivity.
    + unfold Server.main_body, Client.payload. simpl. now rewrite Ht.
  - unfold content, Client.json_loads.
    now rewrite list_byte_of_string_of_list_byte, (proj1 codec_ok).
Qed.

End Session.

(** ** The first answer of the model *)

Section FirstAnswer.

Variable L : library.
Hypothesis codec_ok : codec L.
Variable World : Type.
Variable _openai_chat :
  World -> string -> list value -> list value -> result value * World.

(** X16.  The model is first called with the system prompt, the prompt of the
    user and the tools of [TOOLS]; when its first message carries no tool
    call, [run_llm_flow] returns the content of this message (the empty
    string for a content that counts as false) and does not call the model
    again. *)
Theorem first_answer_is_returned (w : World) (prompt model : string) (answer : value) :
  let given := fst (_openai_chat w model (opening prompt) function_tools) in
  final_answer given answer ->
  let (st, r) := Client.run_llm_flow L _openai_chat w prompt model in
  r = Returned answer
  /\ Client.chat_log st = [given]
  /\ exists message, Client.messages st = opening prompt ++ [message].
Proof.
  intros given (response & message & tool_calls & content & Eg & Em & Et & Hf & Ec & ->).
  destruct (handshake L codec_ok) as (c1 & c2 & c3 & E1 & E2 & E3 & _).
  unfold Client.run_llm_flow. rewrite E1, E2, E3.
  change (mcp_tools <- Py.item (VDict [("tools", Server.tools_list)]) "tools" ;;
          ts <- Py.iter mcp_tools ;; Client.map_result Client.oa_tool ts)
    with (Ok function_tools).
  generalize 7%nat. intros remaining.
  cbn [Client.tool_loop Client.world Client.messages Client.chat_log Client.client].
  fold (opening prompt).
  unfold given in Eg.
  destruct (_openai_chat w model (opening prompt) function_tools) as [r w'].
  simpl in Eg. subst r. rewrite Em. cbn [Client.messages]. rewrite Et, Hf. simpl.
  rewrite Ec. split; [reflexivity|]. split; [reflexivity|]. now exists message.
Qed.

End FirstAnswer.

(** ** The scenarios *)

Section Scenarios.

Variable L : library.

(** X17.  Every runner of [SCENARIOS] returns, whenever it is run: a [dict]
    whose [scenario] is the key of the runner in the table and whose
    [tool_calls] are three or four results of services.  It reads the clock
    at most once. *)
Theorem scenarios_return (name : string) (runner : nat -> result (value * nat))
    (clock : nat) :
  In (name, runner) (orchestrator.SCENARIOS L) ->
  exists result clock' calls,
    runner clock = Ok (result, clock')
    /\ Py.get result "scenario" VNone = Ok (VStr name)
    /\ Py.get result "tool_calls" VNone = Ok (VList calls)
    /\ Forall service_result calls
    /\ (3 <= List.length calls <= 4)%nat
    /\ (clock <= clock' <= S clock)%nat.
Proof.
  intros H. simpl in H.
  repeat (destruct H as [H | H];
          [injection H as <- <-; eexists; eexists; eexists;
           split; [reflexivity|]; split; [reflexivity|]; split; [reflexivity|];
           split; [repeat constructor; eexists; reflexivity | simpl; lia]|]).
  contradiction.
Qed.

End Scenarios.

(** ** How the scenarios chain the services *)

(** X18.  What one service gives is what the scenarios pass on to the next one.
    The risk level of [weather] is one for which [emergency] advises not to
    travel, and its condition is a topic that [knowledge] explains, for
    every region; the mileage of [vehicle_info] is one for which
    [maintenance] finds overdue items, for every vehicle. *)
Theorem services_chain (region vin : value) :
  (exists risk_level advice,
     Py.item (services.weather region) "risk_level" = Ok risk_level
     /\ services.emergency risk_level = Ok advice
     /\ Py.get advice "recommendation" VNone
        = Ok (VStr "Avoid travel and keep roadside assistance on standby"))
  /\ (exists condition entry,
        Py.item (services.weather region) "condition" = Ok condition
        /\ services.knowledge condition = Ok entry
        /\ Py.get entry "explanation" VNone
           = Ok (VStr "Reduced visibility and braking performance increase stopping distance."))
  /\ (exists mileage plan,
        Py.item (services.vehicle_info vin) "mileage" = Ok mileage
        /\ services.maintenance mileage = Ok plan
        /\ Py.get plan "overdue_items" VNone
           = Ok (VList [VStr "brake fluid"; VStr "air filter"])
        /\ Py.get plan "recommended_window_days" VNone = Ok (VInt 7)).
Proof.
  split; [|split]; eexists; eexists; repeat split; reflexivity.
Qed.

(** ** The calls of the model *)

Section Posts.

Variable L : library.
Variable World : Type.

(** A count of the requests that the world has seen. *)
Variable posts : World -> nat.

Section Loop.

Variable chat : World -> string -> list value -> list value -> result value * World.
Hypothesis chat_posts :
  forall w model messages tools,
    (posts (snd (chat w model messages tools)) <= S (posts w))%nat.

Lemma tool_loop_posts (model : string) (oa_tools : list value) (remaining : nat) :
  forall st,
    (posts (Client.world (fst (Client.tool_loop L chat model oa_tools remaining st)))
     <= posts (Client.world st) + remaining)%nat.
Proof.
  induction remaining as [|remaining IH]; intros st;
    [cbn [Client.tool_loop fst Client.world]; lia|].
  cbn [Client.tool_loop].
  pose proof (chat_posts (Client.world st) model (Client.messages st) oa_tools) as Hc.
  destruct (chat (Client.world st) model (Client.messages st) oa_tools) as [r w].
  cbn [snd] in Hc.
  destruct r as [response|e]; [|cbn [fst Client.world]; lia].
  destruct (Client.message_of response) as [message|e]; [|cbn [fst Client.world]; lia].
  cbn [Client.messages Client.client Client.chat_log Client.world].
  destruct (Py.get message "tool_calls" (VList [])) as [tool_calls|e]; [|cbn [fst Client.world]; lia].
  destruct (negb (Py.truthy tool_calls)).
  { destruct (Py.get message "content" (VStr "")); cbn [fst Client.world]; lia. }
  destruct (Py.iter tool_calls) as [tcs|e]; [|cbn [fst Client.world]; lia].
  destruct (Client.dispatch_all L _ _ tcs) as [c' [messages'|e|]]; try (cbn [fst Client.world]; lia).
  etransitivity; [apply IH|]. cbn [fst Client.world]. lia.
Qed.

Lemma run_llm_flow_posts (w : World) (prompt model : string) :
  (posts (Client.world (fst (Client.run_llm_flow L chat w prompt model)))
   <= posts w + 8)%nat.
Proof.
  unfold Client.run_llm_flow.
  destruct (Client.request L _ "initialize" _) as [c1 [v1|e1|]]; try (cbn [fst Client.world]; lia).
  destruct (Client.notify L c1 _ _) as [c2 [v2|e2|]]; try (cbn [fst Client.world]; lia).
  destruct (Client.request L c2 _ _) as [c3 [listed|e3|]]; try (cbn [fst Client.world]; lia).
  destruct (mcp_tools <- Py.item listed "tools" ;; _) as [oa_tools|e]; [|cbn [fst Client.world]; lia].
  etransitivity; [apply tool_loop_posts|]. cbn [fst Client.world]. lia.
Qed.

End Loop.

Variable getenv : string -> option string.
Variable urlopen : World -> llm_client.http_request -> result (list byte) * World.
Hypothesis urlopen_posts :
  forall w req, posts (snd (urlopen w req)) = S (posts w).

Lemma openai_chat_posts (w : World) (model : string) (messages tools : list value) :
  (posts (snd (llm_client._openai_chat L getenv World urlopen w model messages tools))
   <= S (posts w))%nat.
Proof.
  unfold llm_client._openai_chat.
  destruct (llm_client.missing _); [simpl; lia|].
  match goal with |- context [urlopen w ?req] =>
    pose proof (urlopen_posts w req) as H; destruct (urlopen w req) as [res w']
  end.
  simpl in H. destruct res; simpl; lia.
Qed.

(** X19.  [main] sends at most 8 requests to the model, whatever the model
    answers; and it sends none when it lists the tools, when there is no
    prompt and when there is no API key: it then stops before the client
    is started. *)
Theorem main_posts_at_most_8 (a : llm_client.args) (w : World) :
  let '(printed, e, w') := llm_client.main L getenv World urlopen a w in
  (posts w' <= posts w + 8)%nat
  /\ (llm_client.list_tools_flag a = true -> w' = w)
  /\ (llm_client.list_tools_flag a = false ->
      (llm_client.missing (llm_client.prompt a) = true
       -> printed = [] /\ e = llm_client.SystemExit "Provide --prompt or use --list-tools"
          /\ w' = w)
      /\ (llm_client.missing (llm_client.prompt a) = false
          -> llm_client.missing (getenv "OPENAI_API_KEY") = true
          -> printed = []
             /\ e = llm_client.SystemExit "OPENAI_API_KEY is required for --prompt mode"
             /\ w' = w)).
Proof.
  unfold llm_client.main.
  destruct (llm_client.list_tools_flag a).
  { destruct (llm_client.list_tools L) as [printed r].
    split; [lia|]. split; [reflexivity | discriminate]. }
  destruct (llm_client.missing (llm_client.prompt a)).
  { split; [lia|]. split; [discriminate|]. intros _. split; [now intros _ | discriminate]. }
  destruct (llm_client.missing (getenv "OPENAI_API_KEY")).
  { split; [lia|]. split; [discriminate|]. intros _. split; [discriminate | now intros _ _]. }
  pose proof (run_llm_flow_posts (llm_client._openai_chat L getenv World urlopen)
                openai_chat_posts w
                (match llm_client.prompt a with Some p => p | None => "" end)
                (llm_client.model a)) as H.
  destruct (Client.run_llm_flow L _ w _ _) as [st r]. cbn [fst] in H.
  destruct r; (split; [exact H|]); (split; [discriminate|]); intros _;
    (split; [discriminate | discriminate]).
Qed.

End Posts.

(** ** The messages for the tool calls *)

Section ToolMessages.

Variable L : library.

Lemma dispatch_answers (c c' : Client.McpStdioClient) (tc m : value) :
  Client.dispatch L c tc = (c', Returned m) -> answers tc m.
Proof.
  unfold Client.dispatch, Client.tool_call_parts.
  destruct (Py.item tc "function") as [function|] eqn:Ef; [|discriminate].
  cbn [bind].
  destruct (Py.item function "name") as [tool_name|] eqn:En; [|discriminate].
  cbn [bind].
  destruct (Py.get function "arguments" (VStr "{}")) as [text|]; [|discriminate].
  cbn [bind].
  destruct (Client.json_loads L text) as [arguments|]; [|discriminate].
  cbn [bind].
  destruct (Client.request L c "tools/call" _) as [c1 [tool_result|e|]]; try discriminate.
  unfold Client.tool_message.
  destruct (Py.get tool_result "content" (VList [])) as [content|]; [|discriminate].
  cbn [bind].
  destruct (Py.iter content) as [items|]; [|discriminate].
  cbn [bind].
  destruct (Client.concat_text "" items) as [tool_text|]; [|discriminate].
  cbn [bind].
  destruct (Py.item tc "id") as [id|] eqn:Ei; [|discriminate].
  cbn [bind].
  intros H. injection H as _ <-.
  exists id, function, tool_name, tool_text. now repeat split.
Qed.

(** X20.  When the calls of the tools of one message of the model all succeed,
    the messages grow by one tool message for each tool call, in the order
    of the calls, each with the id of its call and the name of its
    function; nothing else is added and nothing is taken away. *)
Theorem tool_messages_answer_tool_calls (tool_calls : list value) :
  forall (c : Client.McpStdioClient) (messages : list value),
    let (c', r) := Client.dispatch_all L c messages tool_calls in
    forall messages',
      r = Returned messages' ->
      exists added,
        messages' = messages ++ added /\ Forall2 answers tool_calls added.
Proof.
  induction tool_calls as [|tc tool_calls IH]; intros c messages.
  - simpl. intros messages' H. injection H as <-. exists []. now rewrite app_nil_r.
  - cbn [Client.dispatch_all].
    destruct (Client.dispatch L c tc) as [c1 [m|e|]] eqn:E;
      try (intros messages' H; discriminate H).
    apply dispatch_answers in E.
    specialize (IH c1 (messages ++ [m])).
    destruct (Client.dispatch_all L c1 (messages ++ [m]) tool_calls) as [c2 r].
    intros messages' H. destruct (IH messages' H) as (added & -> & Hall).
    exists (m :: added). rewrite <- app_assoc. split; [reflexivity|].
    now constructor.
Qed.

End ToolMessages.

(** ** The connection over a session *)

Section Alive.

Variable L : library.
Hypothesis codec_ok : codec L.

Lemma exchange_keeps_quiet (c : Client.McpStdioClient) (method : string)
    (params : option value) :
  quiet c -> quiet (fst (Client.exchange L c method params)).
Proof.
  intros Hq. pose proof (exchange_quiet L codec_ok c method params Hq) as H.
  destruct (method =? "notifications/initialized")%string eqn:E.
  - destruct Hq as [[clock Hs] Ho]. unfold Client.exchange.
    apply String.eqb_eq in E. subst method.
    assert (Server.main_body L clock
              (Client.payload (Some (Client._next_id c)) "notifications/initialized" params)
            = Ok ([], clock)) as Hb by now destruct params.
    rewrite (send_quiet L codec_ok (Client.with_next_id c (Client._next_id c + 1))
               (Some (Client._next_id c)) "notifications/initialized" params _ _ _ Hs Hb).
    unfold Client.stdout_closed. simpl. rewrite Ho. simpl.
    split; [eexists; reflexivity | reflexivity].
  - now destruct H as (response & _ & _ & Hq').
Qed.

Lemma run_keeps_quiet (ops : list op) :
  forall c, quiet c -> quiet (fst (run L c ops)).
Proof.
  induction ops as [|[method params | method params] ops IH]; intros c Hq.
  - exact Hq.
  - cbn [run].
    pose proof (exchange_keeps_quiet c method params Hq) as Hq1.
    destruct (Client.exchange L c method params) as [c1 r]. simpl in Hq1.
    destruct r; try exact Hq1;
      specialize (IH c1 Hq1); now destruct (run L c1 ops).
  - cbn [run].
    pose proof (notify_quiet L codec_ok c method params Hq) as Hq1.
    destruct (Client.notify L c method params) as [c1 r]. simpl in Hq1.
    now apply IH.
Qed.

(** X21.  Whatever the client is asked to send, the server outlives it: after
    any sequence of requests and notifications the server waits for the
    next frame, with nothing half read, and the client has read all that
    the server wrote.  The client sends only JSON objects in whole frames,
    and those never end [main]. *)
Theorem session_keeps_server_waiting (ops : list op) :
  let c := fst (run L (Client.__init__ L) ops) in
  (exists clock, Client.server c = Server.Waiting [] clock)
  /\ Client.stdout c = [].
Proof.
  apply run_keeps_quiet. unfold Client.__init__. rewrite main_waits.
  split; [eexists; reflexivity | reflexivity].
Qed.

(** X22.  [request] does not look at the id of the frame that it reads: when a
    frame is waiting unread on the server's stdout, [request] takes this
    frame for the response, whatever its id, and leaves the response to
    its own request unread behind what was there. *)
Theorem request_takes_the_next_frame (c : Client.McpStdioClient) (method : string)
    (params : option value) (stale : value) (more : list byte) (clock : nat) :
  Client.server c = Server.Waiting [] clock ->
  Client.stdout c = Server._send L stale ++ more ->
  let (c', r) := Client.request L c method params in
  r = match Client.unwrap L stale with
      | Ok v => Returned v
      | Err e => Failed e
      end
  /\ exists out clock',
       Server.main_body L clock (Client.payload (Some (Client._next_id c)) method params)
       = Ok (out, clock')
       /\ Client.stdout c' = more ++ out.
Proof.
  intros Hs Ho. unfold Client.request, Client.exchange.
  assert (exists out clock',
            Server.main_body L clock
              (Client.payload (Some (Client._next_id c)) method params)
            = Ok (out, clock')) as (out & clock' & Hb).
  { pose proof (main_body_request L clock (Client._next_id c) method params) as H.
    destruct (method =? "notifications/initialized")%string; [eauto|].
    destruct H as (response & clock' & H & _). eauto. }
  rewrite (send_quiet L codec_ok (Client.with_next_id c (Client._next_id c + 1))
             (Some (Client._next_id c)) method params _ _ _ Hs Hb).
  unfold Client.stdout_closed. simpl. rewrite Ho, <- app_assoc. unfold Server._send.
  rewrite client_read_frame, (proj1 codec_ok). simpl.
  destruct (Client.unwrap L stale); (split; [reflexivity | eauto]).
Qed.

End Alive.

(** ** The theorems at concrete inputs, continued *)

Lemma init_quiet : quiet (Client.__init__ Json.lib).
Proof. split; [eexists; reflexivity | reflexivity]. Qed.


Lemma pipelined_requests_witness :
  forallb is_dict sample_frames = true
  /\ exists replies clock',
       Server.main Json.lib
         (Stream (List.concat (map (fun r => Frame.frame (dumps Json.lib r)) sample_frames))
                 false) 0
       = (List.concat (map (Server._send Json.lib) replies),
          Server.Waiting [] clock')
       /\ map id_of replies = map id_of (filter expects_reply sample_frames)
       /\ Forall (fun p => envelope (id_of p) p) replies.
Proof.
  split; [reflexivity|].
  exact (pipelined_requests Json.lib sample_frames false 0 json_codec eq_refl).
Defined.

Lemma declared_property_is_read_witness :
  In ("maintenance",
      Server.tool_spec "Get maintenance recommendations based on mileage."
        "current_mileage" "integer") Server.TOOLS
  /\ exists property type,
       Server.schema "current_mileage" "integer" = Server.schema property type
       /\ Server._tool_call Json.lib 0 (VStr "maintenance") (VDict [(property, VInt 45000)])
          = (r <- handler Json.lib "maintenance" 0 (VInt 45000) ;;
             Ok (Server.tool_result Json.lib (fst r), snd r)).
Proof.
  assert (In ("maintenance",
              Server.tool_spec "Get maintenance recommendations based on mileage."
                "current_mileage" "integer") Server.TOOLS) as Hin
    by (simpl; tauto).
  split; [exact Hin|].
  exact (declared_property_is_read Json.lib 0 "maintenance" _ (VInt 45000) Hin).
Defined.

Lemma falsy_arguments_are_no_arguments_witness :
  let items := [("name", VStr "weather"); ("arguments", VList [])] in
  (Py.lookup "name" items = Some (VStr "weather")
   /\ Py.lookup "arguments" items = Some (VList [])
   /\ Py.truthy (VList []) = false)
  /\ Server.try_tool_call Json.lib 0 (VDict items)
     = Server._tool_call Json.lib 0 (VStr "weather") (VDict []).
Proof.
  intros items. split; [now repeat split|].
  exact (proj1 (falsy_arguments_are_no_arguments Json.lib 0 items (VStr "weather")
                  (VList []) eq_refl eq_refl) eq_refl).
Defined.


Lemma partial_frame_waits_witness :
  let p := Bytes.lit "Content-Length: 2" ++ Bytes.CRLF ++ [Bytes.CR] in
  let q := [Bytes.LF] ++ Bytes.lit "{}" in
  (Frame.frame (Bytes.lit "{}") = p ++ q /\ q <> [])
  /\ Server.main Json.lib (Stream p false) 0 = ([], Server.Waiting p 0)
  /\ Client._read Json.lib (Stream p false) = Block.
Proof.
  intros p q.
  assert (q <> []) as Hq by discriminate.
  split; [now split|].
  exact (partial_frame_waits Json.lib (Bytes.lit "{}") p q 0 eq_refl Hq).
Defined.

Lemma body_that_is_no_object_witness :
  Bytes.lit "[1]" <> []
  /\ loads Json.lib (Bytes.lit "[1]") = Some (VList [VInt 1])
  /\ Server.main Json.lib (Stream (Frame.frame (Bytes.lit "[1]") ++ []) true) 0
     = ([], Server.Crashed (AttributeError "'list' object has no attribute 'get'")).
Proof.
  assert (Bytes.lit "[1]" <> []) as Hb by discriminate.
  split; [exact Hb|]. split; [reflexivity|].
  exact (body_that_is_no_object Json.lib (Bytes.lit "[1]") [] true 0 Hb eq_refl).
Defined.

Lemma request_error_is_runtime_error_witness :
  let c := Client.__init__ Json.lib in
  (quiet c /\ known_method (VStr "ping") = false /\ registered (VStr "radio") = false)
  /\ snd (Client.request Json.lib c "ping" None)
     = Failed (RuntimeError "Method not found: ping")
  /\ snd (Client.request Json.lib c "tools/call" (Some (VDict [("name", VStr "radio")])))
     = Failed (RuntimeError "Unknown tool: radio").
Proof.
  intros c. split; [split; [apply init_quiet | now split]|].
  destruct (request_error_is_runtime_error Json.lib json_codec c "ping" "radio" None
              init_quiet) as [A B].
  split; [exact (proj1 (A eq_refl)) | exact (proj1 (B eq_refl))].
Defined.

Lemma request_initialized_hangs_witness :
  quiet (Client.__init__ Json.lib)
  /\ let (c', r) :=
       Client.request Json.lib (Client.__init__ Json.lib) "notifications/initialized" None in
     r = Hangs
     /\ Client._next_id c' = Client._next_id (Client.__init__ Json.lib) + 1
     /\ Client.stdout c' = [].
Proof.
  split; [apply init_quiet|].
  exact (request_initialized_hangs Json.lib json_codec (Client.__init__ Json.lib) None
           init_quiet).
Defined.

Lemma list_tools_prints_the_table_witness :
  codec Json.lib
  /\ llm_client.list_tools Json.lib
     = (map (fun entry => "- " ++ fst entry ++ ": " ++ Server.description (snd entry))%string
            Server.TOOLS,
        Returned tt).
Proof.
  split; [exact json_codec | exact (list_tools_prints_the_table Json.lib json_codec)].
Defined.

Lemma dispatch_tool_message_witness :
  let c := Client.__init__ Json.lib in
  let arguments := VDict [] in
  let r := VDict [("service", VStr "Maintenance"); ("mileage", VInt 42000);
                  ("overdue_items", VList [VStr "brake fluid"; VStr "air filter"]);
                  ("recommended_window_days", VInt 7)] in
  let content := VStr (string_of_list_byte (dumps Json.lib r)) in
  (loads Json.lib (list_byte_of_string "{}") = Some arguments
   /\ Server.try_tool_call Json.lib 0
        (VDict [("name", VStr "maintenance"); ("arguments", arguments)])
      = Ok (Server.tool_result Json.lib r, 0%nat))
  /\ snd (Client.dispatch Json.lib c (tool_call (VStr "call_1") "maintenance" "{}"))
     = Returned (VDict [("role", VStr "tool"); ("tool_call_id", VStr "call_1");
                        ("name", VStr "maintenance"); ("content", content)])
  /\ Client.json_loads Json.lib content = Ok r.
Proof.
  intros c arguments r content. split; [now split|].
  destruct (dispatch_tool_message Json.lib json_codec c (VStr "call_1") "maintenance" "{}"
              arguments r 0 0 eq_refl eq_refl eq_refl eq_refl) as [A B].
  split; [|exact B]. exact (f_equal snd A).
Defined.

Lemma first_answer_is_returned_witness :
  let chat := answers_at_once "Check the spark plug of cylinder 1." in
  final_answer (fst (chat tt "gpt-4o-mini" (opening "hello") function_tools))
    (VStr "Check the spark plug of cylinder 1.")
  /\ let (st, r) := Client.run_llm_flow Json.lib chat tt "hello" "gpt-4o-mini" in
     r = Returned (VStr "Check the spark plug of cylinder 1.")
     /\ Client.chat_log st = [fst (chat tt "gpt-4o-mini" (opening "hello") function_tools)]
     /\ exists message, Client.messages st = opening "hello" ++ [message].
Proof.
  intros chat.
  assert (final_answer (fst (chat tt "gpt-4o-mini" (opening "hello") function_tools))
            (VStr "Check the spark plug of cylinder 1.")) as H
    by (repeat eexists).
  split; [exact H|].
  exact (first_answer_is_returned Json.lib json_codec unit chat tt "hello" "gpt-4o-mini"
           (VStr "Check the spark plug of cylinder 1.") H).
Defined.

Lemma scenarios_return_witness :
  In ("pre_trip", orchestrator.run_pre_trip Json.lib) (orchestrator.SCENARIOS Json.lib)
  /\ exists result clock' calls,
       orchestrator.run_pre_trip Json.lib 0 = Ok (result, clock')
       /\ Py.get result "scenario" VNone = Ok (VStr "pre_trip")
       /\ Py.get result "tool_calls" VNone = Ok (VList calls)
       /\ Forall service_result calls
       /\ (3 <= List.length calls <= 4)%nat
       /\ (0 <= clock' <= 1)%nat.
Proof.
  assert (In ("pre_trip", orchestrator.run_pre_trip Json.lib)
            (orchestrator.SCENARIOS Json.lib)) as Hin by (simpl; tauto).
  split; [exact Hin|].
  exact (scenarios_return Json.lib "pre_trip" (orchestrator.run_pre_trip Json.lib) 0 Hin).
Defined.

Lemma main_posts_at_most_8_witness :
  (forall w req, snd (offline w req) = S w)
  /\ let '(printed, e, w') :=
       llm_client.main Json.lib sample_env nat offline sample_args 0%nat in
     (w' <= 0 + 8)%nat
     /\ (llm_client.list_tools_flag sample_args = true -> w' = 0%nat)
     /\ (llm_client.list_tools_flag sample_args = false ->
         (llm_client.missing (llm_client.prompt sample_args) = true
          -> printed = []
             /\ e = llm_client.SystemExit "Provide --prompt or use --list-tools"
             /\ w' = 0%nat)
         /\ (llm_client.missing (llm_client.prompt sample_args) = false
             -> llm_client.missing (sample_env "OPENAI_API_KEY") = true
             -> printed = []
                /\ e = llm_client.SystemExit "OPENAI_API_KEY is required for --prompt mode"
                /\ w' = 0%nat)).
Proof.
  split; [reflexivity|].
  exact (main_posts_at_most_8 Json.lib nat (fun w => w) sample_env offline
           (fun _ _ => eq_refl) sample_args 0%nat).
Defined.

Lemma session_keeps_server_waiting_witness :
  codec Json.lib
  /\ let c := fst (run Json.lib (Client.__init__ Json.lib) sample_ops) in
     (exists clock, Client.server c = Server.Waiting [] clock)
     /\ Client.stdout c = [].
Proof.
  split; [exact json_codec|].
  exact (session_keeps_server_waiting Json.lib json_codec sample_ops).
Defined.

Lemma request_takes_the_next_frame_witness :
  let c := stale_client Json.lib in
  (Client.server c = Server.Waiting [] 0
   /\ Client.stdout c = Server._send Json.lib stale_response ++ [])
  /\ let (c', r) := Client.request Json.lib c "tools/list" None in
     r = Returned (VStr "old")
     /\ exists out clock',
          Server.main_body Json.lib 0 (Client.payload (Some 5) "tools/list" None)
          = Ok (out, clock')
          /\ Client.stdout c' = [] ++ out.
Proof.
  intros c.
  assert (Client.stdout c = Server._send Json.lib stale_response ++ []) as Ho
    by (now rewrite app_nil_r).
  split; [now split|].
  exact (request_takes_the_next_frame Json.lib json_codec c "tools/list" None
           stale_response [] 0 eq_refl Ho).
Defined.
